(** * News scraper: ingestion orchestration engine

    A shallow embedding of the orchestration code of the news scraper
    ([app/scheduler/tasks.py], [app/scrapers/content_extractor.py],
    [app/api/routes.py]) and the properties of its specification.

    Conventions of the embedding:
    - a Python [dict] is a [gmap string _]; [d[k]] raises [KeyError] on a
      missing key, [d.get(k)] is the lookup, [d.get(k, v)] the lookup with
      default;
    - a call that may raise returns [res A]: [Ok a] or [Raise e];
    - a [threading.Lock] is a boolean ([true] = held); the non-blocking
      [acquire] is one atomic step of the interleaving semantics;
    - a string is a [string] whose elements are its characters. *)

From Stdlib Require Import ZArith QArith String Ascii List Bool Lia.
From stdpp Require Import base option list gmap strings fin_maps pretty.

Local Open Scope string_scope.
Local Open Scope Z_scope.

(** ** Python values, exceptions *)

Module Py.

(** Exceptions the orchestration code can meet. [BaseExc] stands for the
    exceptions that are not subclasses of [Exception] ([KeyboardInterrupt],
    [SystemExit]): an [except Exception] clause does not catch them. *)
Inductive exn : Type :=
  | KeyError (k : string)
  | TypeError
  | AttributeError
  | ValueError
  | ImportError
  | IntegrityError
  | JSONDecodeError
  | TimeoutExpired
  | ConnectTimeout
  | ReadTimeout
  | Timeout
  | SSLError
  | RequestException
  | RuntimeError
  | OtherException
  | BaseExc.

(** [isinstance(e, Exception)] *)
Definition is_Exception (e : exn) : bool :=
  match e with BaseExc => false | _ => true end.

(** [isinstance(e, requests.exceptions.RequestException)] *)
Definition is_RequestException (e : exn) : bool :=
  match e with
  | ConnectTimeout | ReadTimeout | Timeout | SSLError | RequestException => true
  | _ => false
  end.

Inductive res (A : Type) : Type :=
  | Ok (a : A)
  | Raise (e : exn).
Arguments Ok {A} a.
Arguments Raise {A} e.

Definition bind {A B} (r : res A) (k : A -> res B) : res B :=
  match r with Ok a => k a | Raise e => Raise e end.

(** a call that fails, if at all, with a subclass of [Exception] *)
Definition only_exceptions {A} (r : res A) : bool :=
  match r with Ok _ => true | Raise e => is_Exception e end.

(** [str.isspace] on one character (code points below 256). *)
Definition is_space (a : ascii) : bool :=
  let n := nat_of_ascii a in
  ((9 <=? n) && (n <=? 13) || (28 <=? n) && (n <=? 32)
   || (n =? 133) || (n =? 160))%nat.

Fixpoint lstrip (s : string) : string :=
  match s with
  | String a s' => if is_space a then lstrip s' else s
  | EmptyString => EmptyString
  end.

Fixpoint rstrip (s : string) : string :=
  match s with
  | String a s' =>
      match rstrip s' with
      | EmptyString => if is_space a then EmptyString else String a EmptyString
      | t => String a t
      end
  | EmptyString => EmptyString
  end.

(** [s.strip()] *)
Definition strip (s : string) : string := rstrip (lstrip s).

(** [len(s)] *)
Definition len (s : string) : Z := Z.of_nat (String.length s).

(** truth value of a string: [bool(s)] *)
Definition truthy_str (s : string) : bool :=
  match s with EmptyString => false | _ => true end.

(** [s.replace('Z', '+00:00')] *)
Fixpoint replace_Z (s : string) : string :=
  match s with
  | String a s' =>
      if Ascii.eqb a "Z"%char then "+00:00" ++ replace_Z s'
      else String a (replace_Z s')
  | EmptyString => EmptyString
  end.

End Py.
Import Py.

(** ** Source Run Guard: [_scraper_locks] and the guarded runs *)

Module Guard.

(** [_scraper_locks]: one [threading.Lock] per scraper, all released. *)
Definition _scraper_locks : gmap string bool :=
  <["biziday" := false]> (<["adevarul" := false]> (<["facebook" := false]> ∅)).

(** [_scraper_locks[name].acquire(blocking=False)]: one atomic test-and-set.
    Returns whether the lock was taken, and the new lock table. *)
Definition acquire (name : string) (L : gmap string bool)
  : res (bool * gmap string bool) :=
  match L !! name with
  | None => Raise (KeyError name)
  | Some true => Ok (false, L)
  | Some false => Ok (true, <[name := true]> L)
  end.

(** [_scraper_locks[name].release()]; releasing a free lock is a
    [RuntimeError]. *)
Definition release (name : string) (L : gmap string bool)
  : res (gmap string bool) :=
  match L !! name with
  | None => Raise (KeyError name)
  | Some true => Ok (<[name := false]> L)
  | Some false => Raise RuntimeError
  end.

Inductive run_state : Type := idle | running.

Global Instance run_state_eq_dec : EqDecision run_state.
Proof. solve_decision. Defined.

(** [get_scraper_status]: probes every lock with a non-blocking acquire and
    releases it at once when the probe took it. The lock table is the same
    afterwards. *)
Definition probe (held : bool) : run_state :=
  if held then running else idle.

Definition get_scraper_status (L : gmap string bool) : gmap string run_state :=
  probe <$> L.

(** How the [try] block of a run ends. *)
Inductive body_end (V : Type) : Type :=
  | Returns (v : V)        (* falls off the end or executes [return] *)
  | Throws (e : exn).      (* an exception leaves the block *)
Arguments Returns {V} v.
Arguments Throws {V} e.

(** The skeleton shared by [run_biziday_scraper], [run_adevarul_scraper] and
    [run_facebook_scraper]:
<<
    if not _scraper_locks[name].acquire(blocking=False):
        return rejected
    try:     body
    except Exception as e: return handler(e)
    finally: _scraper_locks[name].release()
>>
    The result pairs what the caller sees with the lock table left behind. *)
Definition guarded_run {V} (name : string) (rejected : V)
    (handler : exn -> V) (body : body_end V) (L : gmap string bool)
  : res V * gmap string bool :=
  match acquire name L with
  | Raise e => (Raise e, L)
  | Ok (false, L1) => (Ok rejected, L1)
  | Ok (true, L1) =>
      let after_try : res V :=
        match body with
        | Returns v => Ok v
        | Throws e => if is_Exception e then Ok (handler e) else Raise e
        end in
      match release name L1 with
      | Ok L2 => (after_try, L2)
      | Raise e => (Raise e, L1)
      end
  end.

(** What a news scraper run reports: these functions return [None] and only
    print; the model keeps which path was taken. *)
Inductive news_report : Type :=
  | Skipped            (* "already running - skipping this execution" *)
  | Ran                (* the [try] block ended without an exception *)
  | Failed (e : exn).  (* an [except] clause printed the exception *)

Definition run_biziday_scraper (body : body_end unit) (L : gmap string bool)
  : res news_report * gmap string bool :=
  guarded_run "biziday" Skipped Failed
    (match body with Returns _ => Returns Ran | Throws e => Throws e end) L.

Definition run_adevarul_scraper (body : body_end unit) (L : gmap string bool)
  : res news_report * gmap string bool :=
  guarded_run "adevarul" Skipped Failed
    (match body with Returns _ => Returns Ran | Throws e => Throws e end) L.

(** What [run_facebook_scraper] returns: a dict with either ['success'] or
    ['error']. *)
Inductive fb_result : Type :=
  | FbSuccess (action : string)
  | FbError (msg : string).

Definition fb_already_running : fb_result :=
  FbError "Facebook scraper is already running".

Definition run_facebook_scraper (body : body_end fb_result)
    (L : gmap string bool) : res fb_result * gmap string bool :=
  guarded_run "facebook" fb_already_running
    (fun _ => FbError "Facebook scraper wrapper exception") body L.

(** *** Concurrent callers

    A pool of threads, each about to make (or having made) the non-blocking
    acquire that opens a run. A schedule is the order in which the threads
    are given their next atomic step. *)
Inductive caller : Type :=
  | Pending (name : string)    (* about to call [acquire(blocking=False)] *)
  | Granted (name : string)    (* acquire returned [True]: inside the run *)
  | Rejected (name : string)   (* acquire returned [False]: run dropped *)
  | Crashed (e : exn).

Definition try_begin (c : caller) (L : gmap string bool)
  : caller * gmap string bool :=
  match c with
  | Pending name =>
      match acquire name L with
      | Ok (true, L') => (Granted name, L')
      | Ok (false, L') => (Rejected name, L')
      | Raise e => (Crashed e, L)
      end
  | _ => (c, L)
  end.

(** One scheduling decision: thread [i] runs its next atomic step. *)
Definition sched_step (i : nat) (cfg : list caller * gmap string bool)
  : list caller * gmap string bool :=
  match cfg.1 !! i with
  | Some c => let '(c', L') := try_begin c cfg.2 in (<[i := c']> cfg.1, L')
  | None => cfg
  end.

Definition run_schedule (sched : list nat)
    (cfg : list caller * gmap string bool) : list caller * gmap string bool :=
  fold_left (fun c i => sched_step i c) sched cfg.

Definition is_pending (c : caller) : bool :=
  match c with Pending _ => true | _ => false end.

Definition is_granted (name : string) (c : caller) : bool :=
  match c with Granted n => String.eqb n name | _ => false end.

Definition is_rejected (name : string) (c : caller) : bool :=
  match c with Rejected n => String.eqb n name | _ => false end.

Fixpoint count (p : caller -> bool) (pool : list caller) : nat :=
  match pool with
  | [] => 0
  | c :: rest => (if p c then 1 else 0) + count p rest
  end.

(** number of callers whose [acquire] for [name] returned [True] *)
Definition granted_count (name : string) (pool : list caller) : nat :=
  count (is_granted name) pool.

(** number of callers whose [acquire] for [name] returned [False] *)
Definition rejected_count (name : string) (pool : list caller) : nat :=
  count (is_rejected name) pool.

(** every caller of the pool has made its call *)
Definition all_returned (pool : list caller) : bool :=
  forallb (fun c => negb (is_pending c)) pool.

(** the callers of a pool are all about [name] *)
Definition about (name : string) (c : caller) : Prop :=
  c = Pending name \/ c = Granted name \/ c = Rejected name.

(** While nobody releases, either the guard is free and nobody has called
    yet, or it is held and exactly one caller holds it. *)
Definition one_holder (name : string)
    (cfg : list caller * gmap string bool) : Prop :=
  Forall (about name) cfg.1 /\
  ((cfg.2 !! name = Some false /\ Forall (fun c => c = Pending name) cfg.1)
   \/ (cfg.2 !! name = Some true /\ granted_count name cfg.1 = 1%nat)).

End Guard.

(** ** Bounded extractor: [content_extractor.extract_article_content] *)

Module Extractor.

(** [c.lower()] on one character (code points below 256). *)
Definition lower_char (a : ascii) : ascii :=
  let n := nat_of_ascii a in
  if ((65 <=? n) && (n <=? 90)
      || (192 <=? n) && (n <=? 222) && negb (n =? 215))%nat
  then ascii_of_nat (n + 32) else a.

Fixpoint lower (s : string) : string :=
  match s with
  | String a s' => String (lower_char a) (lower s')
  | EmptyString => EmptyString
  end.

Fixpoint is_prefix (p s : string) : bool :=
  match p, s with
  | EmptyString, _ => true
  | String a p', String b s' => Ascii.eqb a b && is_prefix p' s'
  | String _ _, EmptyString => false
  end.

(** [needle in hay] *)
Fixpoint contains (needle hay : string) : bool :=
  is_prefix needle hay ||
  match hay with
  | String _ hay' => contains needle hay'
  | EmptyString => false
  end.

Section Web.

(** The network and the HTML parser are outside the program: the model takes
    their behaviour as given. [response] is what [requests.get] returns
    after [raise_for_status], [soup] the parsed and pruned document. *)
Variables response soup : Type.
Variable requests_get : string -> res response.
Variable BeautifulSoup : response -> res soup.
(** The three extraction strategies catch their own exceptions and return
    the text or [None]. *)
Variable extract_adevarul_content : soup -> option string.
Variable extract_biziday_content : soup -> option string.
Variable extract_generic_content : soup -> option string.

(** the inner [try]: the fetch and its five [except] clauses, each of which
    returns [None]; any other exception goes on to the outer handlers *)
Inductive fetched : Type :=
  | Page (r : response)
  | GaveUp                 (* an inner clause executed [return None] *)
  | Escaped (e : exn).

Definition fetch (url : string) : fetched :=
  match requests_get url with
  | Ok r => Page r
  | Raise e => if is_RequestException e then GaveUp else Escaped e
  end.

Definition select_content (url : string) (s : soup) : option string :=
  if contains "adevarul.ro" (lower url) then extract_adevarul_content s
  else if contains "biziday.ro" (lower url) then extract_biziday_content s
  else extract_generic_content s.

(** [if content and len(content) > 100: return content else: return None] *)
Definition accept (content : option string) : option string :=
  match content with
  | Some c => if truthy_str c && (100 <? len c) then Some c else None
  | None => None
  end.

(** the outer handlers: [except requests.RequestException] and
    [except Exception] both return [None] *)
Definition outer_except (e : exn) : res (option string) :=
  if is_RequestException e then Ok None
  else if is_Exception e then Ok None
  else Raise e.

Definition extract_article_content (url : string) : res (option string) :=
  match fetch url with
  | GaveUp => Ok None
  | Escaped e => outer_except e
  | Page r =>
      match BeautifulSoup r with
      | Raise e => outer_except e
      | Ok s => Ok (accept (select_content url s))
      end
  end.

End Web.

End Extractor.

(** ** Change detector and ingestion coordinator: [save_articles] *)

Module Ingest.

(** A field of a candidate as the scrapers emit it in JSON: a string or
    [null]. A candidate ([article_data]) is a [gmap string jval]. *)
Inductive jval : Type :=
  | JNull
  | JStr (s : string).

Global Instance jval_eq_dec : EqDecision jval.
Proof. solve_decision. Defined.

(** truth value of [article_data.get(k)] *)
Definition truthy (v : option jval) : bool :=
  match v with
  | Some (JStr s) => truthy_str s
  | _ => false
  end.

(** the Python value of a JSON field, as an attribute of a row:
    [None] or a string *)
Definition to_attr (v : jval) : option string :=
  match v with JNull => None | JStr s => Some s end.

Definition truthy_attr (a : option string) : bool :=
  match a with Some s => truthy_str s | None => false end.

(** [models.NewsArticle]. A [datetime] is kept as the instant, in
    microseconds since the epoch, that [ensure_romania_timezone] gives it
    (a naive value is read as Bucharest time). [title] and [summary] are
    [nullable=False] columns: an attribute may hold [None] until the next
    flush, which then fails. Column defaults and [onupdate] hooks are left
    to the ORM: a row holds what the code assigns. *)
Record NewsArticle : Type := mkArticle {
  title : option string;
  summary : option string;
  content : option string;
  link : string;
  source : string;
  published_at : option Z;
  updated_at : option Z
}.

(** [UPDATE_CHECK_CONFIG]. The two entries read with [.get(key, default)]
    are optional. *)
Record config : Type := mkConfig {
  check_frequency_hours : gmap string Z;
  max_article_age_days : Z;
  max_checks_per_session : Z;
  enable_update_checks : bool;
  enable_content_refresh : option bool;
  content_extraction_timeout : option Z;
  skip_content_refresh_on_timeout : bool
}.

Definition UPDATE_CHECK_CONFIG : config := {|
  check_frequency_hours :=
    <["Adevarul" := 24]> (<["Biziday" := 24]> (<["default" := 72]> ∅));
  max_article_age_days := 7;
  max_checks_per_session := 50;
  enable_update_checks := true;
  enable_content_refresh := Some true;
  content_extraction_timeout := Some 20;
  skip_content_refresh_on_timeout := true
|}.

(** What the worker thread of [extract_with_guaranteed_timeout] does, as the
    polling caller sees it. *)
Inductive worker : Type :=
  | NeverStarted    (* [extraction_started.wait(timeout=5)] gave up *)
  | Completes (content : res (option string))
              (metadata : res (gmap string jval))
                    (* both extractor calls, made inside the thread *)
  | Hangs.          (* not complete when the deadline passes *)

(** One re-extraction attempt: the import of the extractor module, then the
    worker. *)
Inductive attempt : Type :=
  | ImportFails
  | Spawns (w : worker).

(** [result] of [extract_with_guaranteed_timeout] *)
Record extraction_result : Type := mkResult {
  er_content : option string;
  er_metadata : option (gmap string jval);
  er_error : option string
}.

(** the body of [extraction_thread], filling [result] *)
Definition extraction_thread (content : res (option string))
    (metadata : res (gmap string jval)) : extraction_result :=
  match content with
  | Raise _ => mkResult None None (Some "Extraction error")
  | Ok c =>
      if truthy_attr c then
        match metadata with
        | Ok m => mkResult c (Some m) None
        | Raise _ => mkResult c None (Some "Extraction error")
        end
      else mkResult c None None
  end.

Definition extract_with_guaranteed_timeout (w : worker) : extraction_result :=
  match w with
  | NeverStarted =>
      mkResult None None (Some "Extraction thread failed to start within 5s")
  | Completes c m => extraction_thread c m
  | Hangs => mkResult None None (Some "Extraction timeout")
  end.

(** What the run observes of the outside: the clock when candidate [i] is
    looked at, and the [k]-th re-extraction attempt of the run. *)
Record world : Type := mkWorld {
  now_at : nat -> Z;
  attempt_at : nat -> attempt
}.

Inductive event : Type :=
  | Checking (l : string)                  (* "Checking for updates (n/cap)" *)
  | Reextract (url src : string) (timeout : Z)
  | ExtractFailed (msg : string)           (* "Content extraction failed" *)
  | ReextractError                         (* "Error re-extracting content" *)
  | Updated (l : string)                   (* "Updated article" *)
  | SaveError (e : exn).                   (* "Error saving articles" *)

(** The state of the [for] loop of [save_articles]: the session (the rows
    by link, pending inserts and changes included), the three counters, the
    number of re-extraction attempts so far and what was printed. *)
Record loop_state : Type := mkLoop {
  session : gmap string NewsArticle;
  saved_count : Z;
  updated_count : Z;
  checked_count : Z;
  attempts : nat;
  log : list event
}.

Definition Qlt_bool (a b : Q) : bool := negb (Qle_bool b a).

Definition microsecond_per_day : Z := 86400 * 1000000.

Section Engine.

(** [datetime.fromisoformat]: [None] stands for [ValueError]. *)
Variable fromisoformat : string -> option Z.
(** [difflib.SequenceMatcher(None, a, b).ratio()] *)
Variable ratio : string -> string -> Q.
(** [content_extractor.generate_summary_from_content] *)
Variable generate_summary_from_content : string -> Z -> string.
Variable cfg : config.
Variable w : world.

(** [ensure_romania_timezone]: on instants, the identity. *)
Definition ensure_romania_timezone (dt : option Z) : option Z := dt.

(** the recurring block
<<
    x = None
    if article_data.get(k):
        try:    x = datetime.fromisoformat(article_data[k].replace('Z', '+00:00'))
        except: x = None
>> *)
Definition parse_field (article_data : gmap string jval) (k : string)
  : option Z :=
  if truthy (article_data !! k) then
    match article_data !! k with
    | Some (JStr s) => fromisoformat (replace_Z s)
    | _ => None
    end
  else None.

Definition should_check_article_for_updates (now : Z)
    (existing_article : NewsArticle) (new_article_data : gmap string jval)
  : res bool :=
  if negb (enable_update_checks cfg) then Ok false
  else
    match updated_at existing_article with
    | None => Ok true
    | Some stored =>
        let too_old :=
          match ensure_romania_timezone (published_at existing_article) with
          | Some published =>
              let days_since_published := (now - published) / microsecond_per_day in
              max_article_age_days cfg <? days_since_published
          | None => false
          end in
        if too_old then Ok false
        else
          let hours_since_last_update : Q :=
            Qdiv (Qdiv (inject_Z (now - stored)) (inject_Z 1000000))
                 (inject_Z 3600) in
          match check_frequency_hours cfg !! "default" with
          | None => Raise (KeyError "default")
          | Some dflt =>
              let source_frequency :=
                default dflt (check_frequency_hours cfg !! source existing_article) in
              if Qlt_bool hours_since_last_update (inject_Z source_frequency)
              then Ok false
              else
                match parse_field new_article_data "updated_at" with
                | Some new_updated_at =>
                    if stored <? new_updated_at then Ok true else Ok true
                | None => Ok true
                end
          end
    end.

(** [abs(new_length - old_length) / old_length * 100 if old_length > 0 else 0] *)
Definition length_diff_percent (old_length new_length : Z) : Q :=
  if 0 <? old_length then
    Qmult (Qdiv (inject_Z (Z.abs (new_length - old_length)))
                (inject_Z old_length))
          (inject_Z 100)
  else inject_Z 0.

Definition content_changed (existing_article : NewsArticle)
    (new_article_data : gmap string jval) : bool :=
  match new_article_data !! "content", content existing_article with
  | Some (JStr new_content), Some old_content =>
      truthy_str new_content && truthy_str old_content &&
      Qlt_bool (inject_Z 5) (length_diff_percent (len old_content) (len new_content))
  | _, _ => false
  end.

Definition summary_changed (existing_article : NewsArticle)
    (new_article_data : gmap string jval) : bool :=
  match new_article_data !! "summary", summary existing_article with
  | Some (JStr new_s), Some old_s =>
      truthy_str new_s && truthy_str old_s &&
      let old_summary := strip old_s in
      let new_summary := strip new_s in
      negb (String.eqb new_summary old_summary) &&
      Qlt_bool (ratio (Extractor.lower old_summary) (Extractor.lower new_summary))
               (Qmake 8 10)
  | _, _ => false
  end.

Definition title_changed (existing_article : NewsArticle)
    (new_article_data : gmap string jval) : bool :=
  match new_article_data !! "title", title existing_article with
  | Some (JStr new_t), Some old_t =>
      truthy_str new_t && truthy_str old_t &&
      negb (String.eqb (strip new_t) (strip old_t))
  | _, _ => false
  end.

Definition article_needs_update (existing_article : NewsArticle)
    (new_article_data : gmap string jval) (new_updated_at : option Z) : bool :=
  let priority1 :=
    match ensure_romania_timezone new_updated_at,
          ensure_romania_timezone (updated_at existing_article) with
    | Some new_tz, Some existing_tz => existing_tz <? new_tz
    | Some _, None => true
    | None, _ => false
    end in
  if priority1 then true
  else if content_changed existing_article new_article_data then true
  else if summary_changed existing_article new_article_data then true
  else if title_changed existing_article new_article_data then true
  else false.

(** [article_data.get(k, current)] assigned to an attribute *)
Definition get_or (article_data : gmap string jval) (k : string)
    (current : option string) : option string :=
  match article_data !! k with
  | Some v => to_attr v
  | None => current
  end.

(** the three assignments of the "basic update":
<<
    existing.updated_at = new_updated_at
    existing.summary = article_data.get('summary', existing.summary)
    existing.content = article_data.get('content', existing.content)
>> *)
Definition basic_update (existing : NewsArticle)
    (article_data : gmap string jval) (new_updated_at : option Z)
  : NewsArticle :=
  {| title := title existing;
     summary := get_or article_data "summary" (summary existing);
     content := get_or article_data "content" (content existing);
     link := link existing;
     source := source existing;
     published_at := published_at existing;
     updated_at := new_updated_at |}.

(** the branch taken when the extraction result carries no error *)
Definition apply_extraction (existing : NewsArticle)
    (article_data : gmap string jval) (new_updated_at : option Z)
    (r : extraction_result) : NewsArticle :=
  let fresh_metadata := default ∅ (er_metadata r) in
  let '(new_summary, new_content) :=
    match er_content r with
    | Some fresh_content =>
        if truthy_str fresh_content then
          (if 100 <? len fresh_content
           then Some (generate_summary_from_content fresh_content 200)
           else summary existing,
           Some fresh_content)
        else (get_or article_data "summary" (summary existing),
              get_or article_data "content" (content existing))
    | None => (get_or article_data "summary" (summary existing),
               get_or article_data "content" (content existing))
    end in
  let new_stamp :=
    if truthy (fresh_metadata !! "updated_at") then
      match fresh_metadata !! "updated_at" with
      | Some (JStr s) =>
          match fromisoformat (replace_Z s) with
          | Some fresh_updated_at => Some fresh_updated_at
          | None => new_updated_at
          end
      | _ => new_updated_at
      end
    else new_updated_at in
  {| title := title existing;
     summary := new_summary;
     content := new_content;
     link := link existing;
     source := source existing;
     published_at := published_at existing;
     updated_at := new_stamp |}.

(** [min(UPDATE_CHECK_CONFIG.get('content_extraction_timeout', 20), 30)] *)
Definition timeout_seconds : Z :=
  Z.min (default 20 (content_extraction_timeout cfg)) 30.

(** The re-extraction block, lines 400-527: returns the row as changed, the
    number of attempts made and what was printed. *)
Definition refresh_content (src : string) (k : nat) (existing : NewsArticle)
    (article_data : gmap string jval) (new_updated_at : option Z)
  : NewsArticle * nat * list event :=
  if default true (enable_content_refresh cfg) then
    match attempt_at w k with
    | ImportFails =>
        (basic_update existing article_data new_updated_at, k, [ReextractError])
    | Spawns wk =>
        let call := Reextract (link existing) (Extractor.lower src) timeout_seconds in
        let r := extract_with_guaranteed_timeout wk in
        match er_error r with
        | Some msg =>
            if truthy_str msg then
              (basic_update existing article_data new_updated_at, S k,
               [call; ExtractFailed msg])
            else (apply_extraction existing article_data new_updated_at r, S k,
                  [call])
        | None =>
            (apply_extraction existing article_data new_updated_at r, S k, [call])
        end
    end
  else (basic_update existing article_data new_updated_at, k, []).

(** The autoflush that precedes a query, and the flush of [commit]: a row
    whose [title] or [summary] is [None] breaks a NOT NULL constraint. *)
Definition flushable (r : NewsArticle) : bool :=
  match title r, summary r with
  | Some _, Some _ => true
  | _, _ => false
  end.

Definition flush (s : gmap string NewsArticle) : res unit :=
  if forallb flushable (map_to_list s).*2 then Ok tt else Raise IntegrityError.

(** [d[k]] *)
Definition getitem (d : gmap string jval) (k : string) : res jval :=
  match d !! k with
  | Some v => Ok v
  | None => Raise (KeyError k)
  end.

(** The NEW ARTICLE branch. A [link] of [None] is refused here rather than
    at the next flush; both are inside the same [try]. *)
Definition save_new (src : string) (article_data : gmap string jval)
    (lnk : jval) (st : loop_state) : res loop_state :=
  let published_at1 := parse_field article_data "published_at" in
  let published :=
    match published_at1 with
    | Some p => Some p
    | None =>
        if truthy (article_data !! "timestamp")
        then parse_field article_data "timestamp" else None
    end in
  let updated := parse_field article_data "updated_at" in
  bind (getitem article_data "title") (fun t =>
  bind (getitem article_data "summary") (fun sm =>
  match lnk with
  | JNull => Raise IntegrityError
  | JStr l =>
      let article :=
        {| title := to_attr t;
           summary := to_attr sm;
           content := from_option to_attr None (article_data !! "content");
           link := l;
           source := src;
           published_at := published;
           updated_at := updated |} in
      Ok {| session := <[l := article]> (session st);
            saved_count := saved_count st + 1;
            updated_count := updated_count st;
            checked_count := checked_count st;
            attempts := attempts st;
            log := log st |}
  end)).

(** The DUPLICATE FOUND branch. *)
Definition check_duplicate (src : string) (i : nat) (existing : NewsArticle)
    (article_data : gmap string jval) (st : loop_state) : res loop_state :=
  let under_cap := checked_count st <? max_checks_per_session cfg in
  bind (if under_cap
        then should_check_article_for_updates (now_at w i) existing article_data
        else Ok false) (fun checks =>
  if checks then
    let checked := checked_count st + 1 in
    let new_updated_at := parse_field article_data "updated_at" in
    if article_needs_update existing article_data new_updated_at then
      let '(row, k, printed) :=
        match new_updated_at, updated_at existing with
        | Some new_tz, Some existing_tz =>
            if existing_tz <? new_tz
            then refresh_content src (attempts st) existing article_data
                   new_updated_at
            else (existing, attempts st, [])
        | _, _ =>
            (basic_update existing article_data new_updated_at, attempts st, [])
        end in
      Ok {| session := <[link existing := row]> (session st);
            saved_count := saved_count st;
            updated_count := updated_count st + 1;
            checked_count := checked;
            attempts := k;
            log := log st ++ [Checking (link existing)] ++ printed
                     ++ [Updated (link existing)] |}
    else
      Ok {| session := session st;
            saved_count := saved_count st;
            updated_count := updated_count st;
            checked_count := checked;
            attempts := attempts st;
            log := log st ++ [Checking (link existing)] |}
  else Ok st).

(** [NewsArticle.query.filter_by(link=...).first()] *)
Definition query_first (lnk : jval) (s : gmap string NewsArticle)
  : res (option NewsArticle) :=
  bind (flush s) (fun _ =>
  match lnk with
  | JStr l => Ok (s !! l)
  | JNull => Ok None
  end).

(** one iteration of the [for] loop *)
Definition process (src : string) (i : nat) (article_data : gmap string jval)
    (st : loop_state) : res loop_state :=
  bind (getitem article_data "link") (fun lnk =>
  bind (query_first lnk (session st)) (fun found =>
  match found with
  | None => save_new src article_data lnk st
  | Some existing => check_duplicate src i existing article_data st
  end)).

(** The loop: the state reached, and the exception that ended it early, if
    any (the state is then the one before the failing candidate). *)
Fixpoint loop (src : string) (i : nat) (articles_data : list (gmap string jval))
    (st : loop_state) : loop_state * option exn :=
  match articles_data with
  | [] => (st, None)
  | article_data :: rest =>
      match process src i article_data st with
      | Ok st' => loop src (S i) rest st'
      | Raise e => (st, Some e)
      end
  end.

Definition start (db : gmap string NewsArticle) : loop_state :=
  {| session := db; saved_count := 0; updated_count := 0;
     checked_count := 0; attempts := 0; log := [] |}.

(** The result of a run: the database afterwards, the final loop state and
    the exception the outer handler caught, if any. *)
Record run : Type := mkRun {
  db_after : gmap string NewsArticle;
  final : loop_state;
  caught : option exn
}.

(** [save_articles(articles_data, source)]: the loop, then [commit]; the
    single handler around both rolls the session back and prints. An
    exception that is not an [Exception] is not modelled here. *)
Definition save_articles (articles_data : list (gmap string jval))
    (src : string) (db : gmap string NewsArticle) : run :=
  match loop src 0 articles_data (start db) with
  | (st, Some e) =>
      {| db_after := db; final := st; caught := Some e |}
  | (st, None) =>
      match flush (session st) with
      | Ok _ => {| db_after := session st; final := st; caught := None |}
      | Raise e => {| db_after := db; final := st; caught := Some e |}
      end
  end.

(** what the run printed, the handler's line included *)
Definition printed (r : run) : list event :=
  log (final r) ++ match caught r with Some e => [SaveError e] | None => [] end.

End Engine.

Definition is_checking (e : event) : bool :=
  match e with Checking _ => true | _ => false end.

(** number of "Checking for updates" lines among what was printed *)
Fixpoint checks_in (l : list event) : Z :=
  match l with
  | [] => 0
  | e :: rest => (if is_checking e then 1 else 0) + checks_in rest
  end.


(** the counter of checks and the printed lines agree and stay under the cap *)
Definition capped (cfg : config) (st : loop_state) : Prop :=
  0 <= checked_count st <= max_checks_per_session cfg
  /\ checks_in (log st) = checked_count st.



End Ingest.

(** ** Scheduler: [start_scheduler_in_context] *)

Module Scheduler.

(** the functions a job can call *)
Inductive target : Type :=
  | run_biziday_scraper
  | run_adevarul_scraper
  | run_facebook_scraper.

Global Instance target_eq_dec : EqDecision target.
Proof. solve_decision. Defined.

Inductive trigger : Type :=
  | interval (minutes : Z)
  | date (seconds_from_now : Z).

(** [scheduler.add_job(run_with_context(func), trigger, ..., id=...)] *)
Record job : Type := mkJob {
  func : target;
  trig : trigger;
  id : string
}.

(** one value of the dict returned by [get_scraping_config] *)
Record source_config : Type := mkSource {
  frequency_minutes : Z;
  enabled : bool;
  source_id : option Z;
  original_name : string
}.

(** the fallback configuration of [get_scraping_config] *)
Definition fallback_config : list (string * source_config) :=
  [ ("biziday", mkSource 120 true None "Biziday");
    ("adevarul", mkSource 120 true None "Adevarul");
    ("facebook", mkSource 180 true None "Facebook") ].

(** the body of [for source_name, source_config in config.items()] *)
Definition recurring_jobs (testing_mode : bool)
    (entry : string * source_config) : list job :=
  let '(source_name, sc) := entry in
  if negb (enabled sc) then []
  else
    let interval_minutes := if testing_mode then 2 else frequency_minutes sc in
    if String.eqb source_name "biziday" then
      [mkJob run_biziday_scraper (interval interval_minutes) "biziday_scraper"]
    else if String.eqb source_name "adevarul" then
      [mkJob run_adevarul_scraper (interval interval_minutes) "adevarul_scraper"]
    else if String.eqb source_name "facebook" then
      []      (* manual execution only: no job is added *)
    else [].

Definition initial_jobs : list job :=
  [ mkJob run_biziday_scraper (date 30) "biziday_initial";
    mkJob run_adevarul_scraper (date 40) "adevarul_initial" ].

(** the jobs the scheduler holds when [start_scheduler_in_context] returns *)
Definition start_scheduler_in_context (config : list (string * source_config))
    (testing_mode : bool) : list job :=
  concat (map (recurring_jobs testing_mode) config) ++ initial_jobs.

End Scheduler.

(** ** Manual trigger: [routes.scrape_facebook] *)

Module Api.

Import Guard Ingest.

(** the HTTP answer: status code and the result sent back *)
Record response : Type := mkResponse {
  status : Z;
  payload : fb_result
}.

(** [scrape_facebook]: [data] is [request.get_json()], [body] what the scrape
    does once the guard is held. *)
Definition scrape_facebook (data : option (gmap string jval))
    (body : body_end fb_result) (L : gmap string bool)
  : response * gmap string bool :=
  match data with
  | None => (mkResponse 400 (FbError "Missing profile_input in request body"), L)
  | Some d =>
      match d !! "profile_input" with
      | None =>
          (mkResponse 400 (FbError "Missing profile_input in request body"), L)
      | Some JNull => (mkResponse 500 (FbError "Server error"), L)
      | Some (JStr raw) =>
          let profile_input := strip raw in
          if negb (truthy_str profile_input) then
            (mkResponse 400 (FbError "Profile input cannot be empty"), L)
          else
            match Guard.run_facebook_scraper body L with
            | (Ok (FbSuccess a), L') => (mkResponse 200 (FbSuccess a), L')
            | (Ok (FbError m), L') => (mkResponse 400 (FbError m), L')
            | (Raise _, L') => (mkResponse 500 (FbError "Server error"), L')
            end
      end
  end.

End Api.

(** ** Profile refresh: [update_facebook_profile] *)

Module Profile.

(** a value of the scraped profile dict; an element of a list is a string,
    or [None] here when it is anything else *)
Inductive pyval : Type :=
  | PNone
  | PStr (s : string)
  | PInt (z : Z)
  | PBool (b : bool)
  | PList (items : list (option string)).

(** truth value *)
Definition truthy (v : pyval) : bool :=
  match v with
  | PNone => false
  | PStr s => truthy_str s
  | PInt z => negb (z =? 0)
  | PBool b => b
  | PList l => match l with [] => false | _ => true end
  end.

Section Refresh.

(** [datetime] values are opaque here. *)
Variable datetime : Type.
Variable fromisoformat : string -> option datetime.   (* [None]: [ValueError] *)
Variable str_datetime : datetime -> string.
Variable now : datetime.

(** the value of a column of [FacebookUserProfile] *)
Inductive attr : Type :=
  | ANone
  | AStr (s : string)
  | AInt (z : Z)
  | ABool (b : bool)
  | ADate (d : datetime).

(** [str(v)] *)
Definition str (v : attr) : string :=
  match v with
  | ANone => "None"
  | AStr s => s
  | AInt z => pretty z
  | ABool b => if b then "True" else "False"
  | ADate d => str_datetime d
  end.

Inductive event : Type :=
  | Updating (field_name : string)
  | Clearing (field_name : string).

(** [bool(new_value)] for the values this code assigns *)
Definition truthy_attr (v : attr) : bool :=
  match v with
  | ANone => false
  | AStr s => truthy_str s
  | AInt z => negb (z =? 0)
  | ABool b => b
  | ADate _ => true
  end.

(** the closure state of [update_facebook_profile]: the ORM object, the
    [updated] flag and what was printed *)
Record state : Type := mkState {
  existing_profile : gmap string attr;
  updated : bool;
  printed : list event
}.

(** [safe_get_string(data, key, default)] *)
Definition safe_get_string (data : gmap string pyval) (key dflt : string)
  : string :=
  match data !! key with
  | Some (PStr s) => strip s
  | _ => dflt
  end.

Definition none_to_empty (v : attr) : attr :=
  match v with ANone => AStr "" | _ => v end.

(** [update_field_if_different(field_name, new_value)] *)
Definition update_field_if_different (field_name : string) (new_value : attr)
    (st : state) : state :=
  let current_value :=
    none_to_empty (default ANone (existing_profile st !! field_name)) in
  let new_value := none_to_empty new_value in
  if negb (String.eqb (str new_value) (str current_value)) then
    {| existing_profile := <[field_name := new_value]> (existing_profile st);
       updated := true;
       printed := printed st ++
         [if truthy_attr new_value then Updating field_name
          else Clearing field_name] |}
  else st.

(** the string columns in the order they are refreshed, each with the default
    its [safe_get_string] call passes *)
Definition basic_fields : list (string * string) :=
  [ ("name", ""); ("bio", "") ].

Definition detail_fields : list (string * string) :=
  [ ("username", ""); ("location", ""); ("country", "RO");
    ("age_range", ""); ("gender", "");
    ("professional_title", ""); ("current_employer", ""); ("work_history", "");
    ("education", "");
    ("current_location", ""); ("origin_location", "");
    ("relationship_status", ""); ("languages", "");
    ("interests", ""); ("interests_detailed", ""); ("topics_discussed", "");
    ("social_media_links", "");
    ("religious_info", ""); ("church_position", ""); ("church_affiliation", "");
    ("family_members", ""); ("life_events", ""); ("about_section", "");
    ("favorite_quotes", ""); ("other_names", "");
    ("contact_email", ""); ("contact_phone", ""); ("birthday", "");
    ("political_views", "") ].

Definition update_strings (data : gmap string pyval)
    (fields : list (string * string)) (st : state) : state :=
  fold_left (fun s fd =>
    update_field_if_different fd.1 (AStr (safe_get_string data fd.1 fd.2)) s)
    fields st.

(** [sep.join(parts)] for a list of strings *)
Fixpoint join (sep : string) (parts : list string) : string :=
  match parts with
  | [] => ""
  | [p] => p
  | p :: rest => p ++ sep ++ join sep rest
  end.

Definition chars (s : string) : list string :=
  map (fun a => String a EmptyString) (list_ascii_of_string s).

(** [','.join(new_accounts) if new_accounts else ''] *)
Definition accounts_str (new_accounts : pyval) : res string :=
  if truthy new_accounts then
    match new_accounts with
    | PList items =>
        match mapM id items with
        | Some parts => Ok (join "," parts)
        | None => Raise TypeError
        end
    | PStr s => Ok (join "," (chars s))
    | _ => Raise TypeError
    end
  else Ok "".

(** [c.isdigit()] on one character (code points below 256): the ten digits
    and the superscripts 1, 2, 3 *)
Definition isdigit_char (a : ascii) : bool :=
  let n := nat_of_ascii a in
  ((48 <=? n) && (n <=? 57) || (n =? 178) || (n =? 179) || (n =? 185))%nat.

Definition isdigit (s : string) : bool :=
  truthy_str s && forallb isdigit_char (list_ascii_of_string s).

(** [int(s)] for a string that passed [isdigit]: a superscript digit is a
    [ValueError] *)
Definition int_of_digits (s : string) : res Z :=
  fold_left (fun acc a =>
    bind acc (fun n =>
      let d := nat_of_ascii a in
      if ((48 <=? d) && (d <=? 57))%nat then Ok (10 * n + Z.of_nat (d - 48))
      else Raise ValueError))
    (list_ascii_of_string s) (Ok 0).

(** the block
<<
    x = new_profile_data.get(key, 0)
    if isinstance(x, (int, str)) and str(x).isdigit():
        update_field_if_different(key, int(x))
>>
    ([bool] is a subclass of [int], and [str(True)] is not made of digits) *)
Definition update_count (data : gmap string pyval) (key : string) (st : state)
  : res state :=
  match default (PInt 0) (data !! key) with
  | PInt z =>
      if 0 <=? z then Ok (update_field_if_different key (AInt z) st) else Ok st
  | PStr s =>
      if isdigit s then
        bind (int_of_digits s) (fun z =>
          Ok (update_field_if_different key (AInt z) st))
      else Ok st
  | _ => Ok st
  end.

(** the block
<<
    x = new_profile_data.get(key, default)
    if isinstance(x, bool):
        update_field_if_different(key, x)
>> *)
Definition update_flag (data : gmap string pyval) (key : string) (dflt : bool)
    (st : state) : state :=
  match default (PBool dflt) (data !! key) with
  | PBool b => update_field_if_different key (ABool b) st
  | _ => st
  end.

Definition update_last_scraped (data : gmap string pyval) (st : state) : state :=
  match data !! "last_scraped_at" with
  | Some v =>
      if truthy v then
        match v with
        | PStr s =>
            match fromisoformat (replace_Z s) with
            | Some last_scraped =>
                update_field_if_different "last_scraped_at" (ADate last_scraped) st
            | None => update_field_if_different "last_scraped_at" (ADate now) st
            end
        | _ => st
        end
      else st
  | None => st
  end.

(** the [try] block up to the final [if updated:] *)
Definition refresh (data : gmap string pyval) (st : state) : res state :=
  let st := update_strings data basic_fields st in
  bind (accounts_str (default (PList []) (data !! "connected_accounts")))
    (fun new_accounts_str =>
  let st := update_field_if_different "connected_accounts"
              (AStr new_accounts_str) st in
  let st := update_strings data detail_fields st in
  bind (update_count data "followers_count" st) (fun st =>
  bind (update_count data "friends_count" st) (fun st =>
  bind (update_count data "posts_count" st) (fun st =>
  let st := update_flag data "is_verified" false st in
  let st := update_flag data "is_public" true st in
  let st := update_field_if_different "scraping_method"
              (AStr (safe_get_string data "scraping_method" "manual")) st in
  Ok (update_last_scraped data st))))).

(** what [update_facebook_profile] returns: [{'updated': ...}], with
    ['error'] when the handler ran *)
Record outcome : Type := mkOutcome {
  profile_after : gmap string attr;
  result_updated : bool;
  result_error : option exn;
  trace : list event
}.

(** [update_facebook_profile(existing_profile, new_profile_data)]: on an
    exception the session is rolled back and the stored row is as before. *)
Definition update_facebook_profile (stored : gmap string attr)
    (new_profile_data : gmap string pyval) : outcome :=
  match refresh new_profile_data (mkState stored false []) with
  | Ok st =>
      if updated st then
        {| profile_after := <["updated_at" := ADate now]> (existing_profile st);
           result_updated := true; result_error := None; trace := printed st |}
      else
        {| profile_after := existing_profile st;
           result_updated := false; result_error := None; trace := printed st |}
  | Raise e =>
      {| profile_after := stored; result_updated := false;
         result_error := Some e; trace := [] |}
  end.

(** the fields read through [safe_get_string], with their defaults *)
Definition string_fields : list (string * string) :=
  basic_fields ++ detail_fields ++ [("scraping_method", "manual")].

(** [fields] names the column [f] *)
Definition mentions (f : string) (fields : list (string * string)) : bool :=
  existsb (fun fd => String.eqb f fd.1) fields.

Fixpoint distinct (fields : list (string * string)) : bool :=
  match fields with
  | [] => true
  | fd :: rest => negb (mentions fd.1 rest) && distinct rest
  end.

(** the fresh value of a field is missing or is not a string *)
Definition not_a_string (v : option pyval) : bool :=
  match v with Some (PStr _) => false | _ => true end.

(** a step that leaves column [f] alone and does not reset [updated] *)
Definition keeps (f : string) (st st' : state) : Prop :=
  existing_profile st' !! f = existing_profile st !! f
  /\ (updated st = true -> updated st' = true).

End Refresh.

Arguments ANone {datetime}.
Arguments AStr {datetime} s.
Arguments AInt {datetime} z.
Arguments ABool {datetime} b.
Arguments ADate {datetime} d.
Arguments existing_profile {datetime} s.
Arguments updated {datetime} s.
Arguments printed {datetime} s.
Arguments profile_after {datetime} o.
Arguments result_updated {datetime} o.
Arguments result_error {datetime} o.
Arguments trace {datetime} o.
Arguments keeps {datetime} f st st'.

End Profile.

(** ** Sample data for the worked runs *)

Module Sample.

Import Ingest.

Fixpoint times (n : nat) (a : ascii) : string :=
  match n with
  | O => EmptyString
  | S n' => String a (times n' a)
  end.

(** Instants, in microseconds since the epoch, of some Bucharest wall-clock
    times (UTC+2 in March). *)
Definition T0 : Z := 1709280000000000.     (* 2024-03-01T10:00:00 *)
Definition T0_30 : Z := 1709281800000000.  (* 2024-03-01T10:30:00 *)
Definition T1 : Z := 1709366400000000.     (* 2024-03-02T10:00:00 *)
Definition noon3 : Z := 1709456400000000.  (* 2024-03-03T11:00:00 *)

(** [datetime.fromisoformat] on the strings the worked runs use; any other
    string used there is not a timestamp. *)
Definition fromisoformat (s : string) : option Z :=
  if String.eqb s "2024-03-01T10:00:00" then Some T0
  else if String.eqb s "2024-03-01T10:30:00" then Some T0_30
  else if String.eqb s "2024-03-02T10:00:00" then Some T1
  else None.

(** The worked runs compare equal summaries only, for which the ratio is 1. *)
Definition ratio (a b : string) : Q := inject_Z 1.

Definition generate_summary_from_content (c : string) (max_length : Z) : string :=
  String.substring 0 (Z.to_nat max_length) c.

(** a clock that stands at [noon3], and an extractor that never answers *)
Definition stalled : world :=
  {| now_at := fun _ => noon3; attempt_at := fun _ => Spawns Hangs |}.


Definition stored (stamp : option Z) : NewsArticle :=
  {| title := Some "Title";
     summary := Some "Summary";
     content := Some (times 50 "A");
     link := "https://x/1";
     source := "Biziday";
     published_at := Some T0;
     updated_at := stamp |}.

Definition db (stamp : option Z) : gmap string NewsArticle :=
  <["https://x/1" := stored stamp]> ∅.

(** a candidate for the stored article *)
Definition candidate (body : jval) (stamp : option jval) : gmap string jval :=
  let base : gmap string jval :=
    <["link" := JStr "https://x/1"]> (<["title" := JStr "Title"]>
    (<["summary" := JStr "Summary"]> (<["content" := body]> ∅))) in
  match stamp with
  | Some v => <["updated_at" := v]> base
  | None => base
  end.

(** a candidate for an article not seen before *)
Definition fresh (l : string) (published : jval) : gmap string jval :=
  <["link" := JStr l]> (<["title" := JStr "New"]>
  (<["summary" := JStr "New summary"]> (<["published_at" := published]> ∅))).

Definition run_sample (cfg : config) (w : world)
    (articles_data : list (gmap string jval)) (d : gmap string NewsArticle)
  : run :=
  save_articles fromisoformat ratio generate_summary_from_content cfg w
    articles_data "Biziday" d.

End Sample.

(** ** Sample profile for the worked refresh *)

Module SampleProfile.

Import Profile.

(** The worked refresh carries no [last_scraped_at], so no timestamp is
    parsed or printed. *)
Definition fromisoformat (s : string) : option Z := None.
Definition str_datetime (d : Z) : string := "".
Definition now : Z := 1709456400000000.

Definition stored : gmap string (attr Z) :=
  <["name" := AStr "Ana"]> (<["bio" := AStr "Hello"]>
  (<["country" := AStr "US"]> (<["scraping_method" := AStr "selenium"]> ∅))).

(** fresh data that carries the name only *)
Definition name_only : gmap string pyval := <["name" := PStr "Ana"]> ∅.

Definition refreshed : outcome Z :=
  update_facebook_profile Z fromisoformat str_datetime now stored name_only.

End SampleProfile.

(** ** Predicates on tables of articles *)

Module Table.

Import Ingest.

(** every row sits under its own link (the unique key of the table) *)
Definition keyed (s : gmap string NewsArticle) : Prop :=
  map_Forall (fun k r => link r = k) s.

(** the columns no update assigns *)
Definition same_identity (r r' : NewsArticle) : Prop :=
  title r' = title r /\ link r' = link r /\ source r' = source r
  /\ published_at r' = published_at r.

(** every row of [db] is still in [s], under the same link and with the
    same identity *)
Definition extends (db s : gmap string NewsArticle) : Prop :=
  forall l r, db !! l = Some r ->
  exists r', s !! l = Some r' /\ same_identity r r'.

(** the candidate is about a link that [db] holds *)
Definition known (db : gmap string NewsArticle) (d : gmap string jval) : Prop :=
  exists l, d !! "link" = Some (JStr l) /\ is_Some (db !! l).

(** What one iteration of the loop of [save_articles] did to the state. *)
Inductive effect (d : gmap string jval) (st st' : loop_state) : Prop :=
  | Inserted (l : string) (row : NewsArticle) :
      d !! "link" = Some (JStr l) ->
      session st !! l = None -> link row = l ->
      session st' = <[l := row]> (session st) ->
      saved_count st' = saved_count st + 1 ->
      updated_count st' = updated_count st ->
      checked_count st' = checked_count st ->
      attempts st' = attempts st ->
      effect d st st'
  | Skipped :
      st' = st -> effect d st st'
  | Looked :
      session st' = session st ->
      saved_count st' = saved_count st ->
      updated_count st' = updated_count st ->
      checked_count st' = checked_count st + 1 ->
      attempts st' = attempts st ->
      effect d st st'
  | Rewrote (l : string) (existing row : NewsArticle) :
      session st !! l = Some existing ->
      session st' = <[link existing := row]> (session st) ->
      same_identity existing row ->
      saved_count st' = saved_count st ->
      updated_count st' = updated_count st + 1 ->
      checked_count st' = checked_count st + 1 ->
      (attempts st <= attempts st' <= S (attempts st))%nat ->
      effect d st st'.

(** the counters of a state are ordered: no extraction without an update,
    no update without a check *)
Definition ordered (st : loop_state) : Prop :=
  Z.of_nat (attempts st) <= updated_count st <= checked_count st.

End Table.

(** ** The status probe, lock by lock *)

Module Probe.

Import Guard.

(** the body of the loop of [get_scraper_status]:
<<
    if lock.acquire(blocking=False):
        lock.release()
        status[scraper_name] = 'idle'
    else:
        status[scraper_name] = 'running'
>> *)
Definition probe_lock (name : string) (L : gmap string bool)
  : res (run_state * gmap string bool) :=
  match acquire name L with
  | Raise e => Raise e
  | Ok (true, L1) => bind (release name L1) (fun L2 => Ok (idle, L2))
  | Ok (false, L1) => Ok (running, L1)
  end.

(** [get_scraper_status], one lock after the other: the status dict and the
    lock table left behind *)
Definition get_scraper_status_steps (L : gmap string bool)
  : res (gmap string run_state * gmap string bool) :=
  map_fold
    (fun name _ acc =>
       bind acc (fun '(status, L') =>
       bind (probe_lock name L') (fun '(s, L'') =>
       Ok (<[name := s]> status, L''))))
    (Ok (∅, L)) L.

End Probe.

(** ** Profile URLs, saving a profile, recording a scrape *)

Module Facebook.

Import Profile.

(** [s[1:]] *)
Definition drop_first (s : string) : string :=
  match s with String _ rest => rest | EmptyString => EmptyString end.

(** [normalize_facebook_url], the helper of [run_facebook_scraper] *)
Definition normalize_facebook_url (user_input : string) : string :=
  let user_input := strip user_input in
  if Extractor.is_prefix "http" user_input then user_input
  else if isdigit user_input then
    "https://www.facebook.com/profile.php?id=" ++ user_input
  else
    let user_input :=
      if Extractor.is_prefix "@" user_input then drop_first user_input
      else user_input in
    "https://www.facebook.com/" ++ user_input.

(** [','.join(v)], without the emptiness guard of the refresh *)
Definition join_accounts (v : pyval) : res string :=
  match v with
  | PList items =>
      match mapM id items with
      | Some parts => Ok (join "," parts)
      | None => Raise TypeError
      end
  | PStr s => Ok (join "," (chars s))
  | _ => Raise TypeError
  end.

(** [safe_get_int(data, key, default)] of [save_facebook_profile] *)
Definition safe_get_int (data : gmap string pyval) (key : string) (dflt : Z)
  : res Z :=
  match default (PInt dflt) (data !! key) with
  | PInt z => if 0 <=? z then Ok z else Ok dflt
  | PStr s => if isdigit s then int_of_digits s else Ok dflt
  | _ => Ok dflt
  end.

(** [safe_get_bool(data, key, default)] *)
Definition safe_get_bool (data : gmap string pyval) (key : string)
    (dflt : bool) : bool :=
  match default (PBool dflt) (data !! key) with
  | PBool b => b
  | _ => dflt
  end.

Section Store.

Variable datetime : Type.
Variable fromisoformat : string -> option datetime.
Variable str_datetime : datetime -> string.
Variable now : datetime.
(** The constraints of the database on a new row (NOT NULL, lengths):
    [commit] raises when they do not hold. *)
Variable db_accepts : gmap string (attr datetime) -> bool.
(** What the driver makes, at the commit, of a [name] that is neither a
    string nor [None]: the column value, or the exception it raises. *)
Variable bind_value : pyval -> res (attr datetime).

(** the value of [name=profile_data['name']] as the [name] column gets it *)
Definition name_attr (v : pyval) : res (attr datetime) :=
  match v with
  | PNone => Ok ANone
  | PStr s => Ok (AStr s)
  | _ => bind_value v
  end.

Definition set_strings (data : gmap string pyval)
    (fields : list (string * string)) (row : gmap string (attr datetime))
  : gmap string (attr datetime) :=
  fold_left (fun r fd => <[fd.1 := AStr (safe_get_string data fd.1 fd.2)]> r)
    fields row.

(** the row [FacebookUserProfile(...)] builds, as it reaches the database:
    the arguments are evaluated in the order of the source, the [name] is
    bound when the row is flushed; the three calls of [datetime.now()] are
    taken at one instant *)
Definition new_profile (profile_data : gmap string pyval)
    (profile_url : string) : res (gmap string (attr datetime)) :=
  bind (join_accounts (default (PList []) (profile_data !! "connected_accounts")))
    (fun connected_accounts =>
  match profile_data !! "name" with
  | None => Raise (KeyError "name")
  | Some v =>
  bind (safe_get_int profile_data "followers_count" 0) (fun followers =>
  bind (safe_get_int profile_data "friends_count" 0) (fun friends =>
  bind (safe_get_int profile_data "posts_count" 0) (fun posts =>
  bind (name_attr v) (fun name =>
  Ok (<["updated_at" := ADate now]> (<["created_at" := ADate now]>
     (<["last_scraped_at" := ADate now]>
     (<["scraping_method" :=
          AStr (safe_get_string profile_data "scraping_method" "manual")]>
     (<["is_public" := ABool (safe_get_bool profile_data "is_public" true)]>
     (<["is_verified" := ABool (safe_get_bool profile_data "is_verified" false)]>
     (<["posts_count" := AInt posts]> (<["friends_count" := AInt friends]>
     (<["followers_count" := AInt followers]>
     (set_strings profile_data detail_fields
     (<["profile_url" := AStr profile_url]>
     (<["connected_accounts" := AStr connected_accounts]>
     (<["bio" := AStr (safe_get_string profile_data "bio" "")]>
     (<["name" := name]> ∅))))))))))))))))))
  end).

Inductive save_report : Type :=
  | Stored                 (* "Saved NEW Facebook profile" *)
  | AlreadyStored          (* a profile with this URL exists: nothing done *)
  | SaveFailed (e : exn).  (* "Error saving Facebook profile", rolled back *)

(** [save_facebook_profile(profile_data, profile_url)] on the table of the
    profiles by URL. It returns [None] whatever happens; the model keeps
    which path was taken. *)
Definition save_facebook_profile
    (db : gmap string (gmap string (attr datetime)))
    (profile_data : gmap string pyval) (profile_url : string)
  : gmap string (gmap string (attr datetime)) * save_report :=
  match db !! profile_url with
  | Some _ => (db, AlreadyStored)
  | None =>
      match new_profile profile_data profile_url with
      | Raise e => (db, SaveFailed e)
      | Ok row =>
          if db_accepts row then (<[profile_url := row]> db, Stored)
          else (db, SaveFailed IntegrityError)
      end
  end.

(** the part of [run_facebook_scraper] that follows a scrape, the same in
    the Selenium and in the fallback branch:
<<
    existing = FacebookUserProfile.query.filter_by(
                   profile_url=profile_data['profile_url']).first()
    if existing:
        result = update_facebook_profile(existing, profile_data)
        return {'success': True, ...
                'action': 'updated' if result.get('updated') else 'refreshed'}
    else:
        save_facebook_profile(profile_data, profile_data['profile_url'])
        print(... profile_data['name'] ...)
        return {'success': True, ..., 'action': 'created'}
>>
    for a [profile_url] that is a string. *)
Definition record_profile (db : gmap string (gmap string (attr datetime)))
    (profile_data : gmap string pyval) (profile_url : string)
  : res (Guard.fb_result * gmap string (gmap string (attr datetime))) :=
  match profile_data !! "name" with
  | None => Raise (KeyError "name")
  | Some _ =>
      match db !! profile_url with
      | Some existing =>
          let result :=
            update_facebook_profile datetime fromisoformat str_datetime now
              existing profile_data in
          Ok (Guard.FbSuccess
                (if result_updated result then "updated" else "refreshed"),
              <[profile_url := profile_after result]> db)
      | None =>
          Ok (Guard.FbSuccess "created",
              (save_facebook_profile db profile_data profile_url).1)
      end
  end.

End Store.

(** the columns [update_facebook_profile] can assign *)
Definition refreshed_columns : list string :=
  (string_fields).*1
  ++ ["connected_accounts"; "followers_count"; "friends_count"; "posts_count";
      "is_verified"; "is_public"; "last_scraped_at"; "updated_at"].

End Facebook.

(** ** Summaries: [generate_summary_from_content] *)

Module Summary.

(** [s[:n]] *)
Definition slice_to (n : Z) (s : string) : string :=
  if 0 <=? n then String.substring 0 (Z.to_nat n) s
  else String.substring 0 (String.length s - Z.to_nat (- n)) s.

(** the index of the last occurrence of [needle], searching from [from];
    [found] is the best index so far *)
Fixpoint rfind_from (needle hay : string) (from : Z) (found : Z) : Z :=
  let found := if Extractor.is_prefix needle hay then from else found in
  match hay with
  | String _ rest => rfind_from needle rest (from + 1) found
  | EmptyString => found
  end.

(** [hay.rfind(needle)]: [-1] when there is none *)
Definition rfind (needle hay : string) : Z := rfind_from needle hay 0 (-1).

Section Generate.

(** [clean_text] works with regular expressions over Unicode text and is
    taken as given. *)
Variable clean_text : string -> string.
(** [position > max_length * 0.7] and [position > max_length * 0.8], both
    computed in floating point *)
Variables over_70 over_80 : Z -> Z -> bool.

Definition generate_summary_from_content (content : option string)
    (max_length : Z) : string :=
  match content with
  | None => ""
  | Some c =>
      if negb (truthy_str c) then ""
      else
        let clean_content := clean_text c in
        if len clean_content <=? max_length then clean_content
        else
          let truncated := slice_to max_length clean_content in
          let sentence_end := rfind ". " truncated in
          if over_70 sentence_end max_length
          then slice_to (sentence_end + 1) truncated
          else
            let word_end := rfind " " truncated in
            if over_80 word_end max_length
            then slice_to word_end truncated ++ "..."
            else truncated ++ "..."
  end.

End Generate.

End Summary.

(** ** Scheduler configuration: [get_scraping_config] *)

Module Config.

Import Scheduler.

(** the columns of [models.NewsSource] the configuration reads, for rows
    whose [scraping_frequency] is set *)
Record NewsSource : Type := mkNewsSource {
  ns_id : Z;
  ns_name : string;
  scraping_enabled : bool;
  scraping_frequency : Z
}.

Definition fallback : gmap string source_config := list_to_map fallback_config.

Section Get.

(** [normalize_source_name] strips diacritics with [unicodedata] and
    lowers the case; it is taken as given. *)
Variable normalize_source_name : string -> string.

(** the loop that fills [sources_config] from the enabled sources *)
Definition from_sources (sources : list NewsSource)
  : gmap string source_config :=
  fold_left
    (fun config source =>
       <[normalize_source_name (ns_name source) :=
           mkSource (scraping_frequency source) (scraping_enabled source)
             (Some (ns_id source)) (ns_name source)]> config)
    sources ∅.

(** [get_scraping_config]: [table] is the table of sources, or the
    exception the query raises *)
Definition get_scraping_config (table : res (list NewsSource))
  : gmap string source_config :=
  match table with
  | Raise _ => fallback
  | Ok rows =>
      let sources := List.filter scraping_enabled rows in
      let sources_config := from_sources sources in
      if decide (sources_config = ∅) then fallback else sources_config
  end.

End Get.

End Config.

(** ** More sample worlds and configurations *)

Module SampleRuns.

Import Ingest Sample.


(** [UPDATE_CHECK_CONFIG] with ['enable_update_checks': False] *)
Definition checks_off : config := {|
  check_frequency_hours := check_frequency_hours UPDATE_CHECK_CONFIG;
  max_article_age_days := max_article_age_days UPDATE_CHECK_CONFIG;
  max_checks_per_session := max_checks_per_session UPDATE_CHECK_CONFIG;
  enable_update_checks := false;
  enable_content_refresh := enable_content_refresh UPDATE_CHECK_CONFIG;
  content_extraction_timeout := content_extraction_timeout UPDATE_CHECK_CONFIG;
  skip_content_refresh_on_timeout :=
    skip_content_refresh_on_timeout UPDATE_CHECK_CONFIG
|}.

(** a candidate with a newer stamp and a longer content for the stored
    article *)
Definition newer : gmap string jval :=
  candidate (JStr (times 60 "B")) (Some (JStr "2024-03-02T10:00:00")).

(** a candidate that repeats the stored article, stamp included *)
Definition same : gmap string jval :=
  candidate (JStr (times 50 "A")) (Some (JStr "2024-03-01T10:00:00")).


End SampleRuns.

(** * Properties *)

(** ** Source Run Guard *)

Section GuardFacts.

Import Guard.

Lemma acquire_idle name (L : gmap string bool) :
  L !! name = Some false -> acquire name L = Ok (true, <[name := true]> L).
Proof. intros H. unfold acquire. now rewrite H. Qed.

Lemma acquire_held name (L : gmap string bool) :
  L !! name = Some true -> acquire name L = Ok (false, L).
Proof. intros H. unfold acquire. now rewrite H. Qed.

Lemma release_held name (L : gmap string bool) :
  L !! name = Some true -> release name L = Ok (<[name := false]> L).
Proof. intros H. unfold release. now rewrite H. Qed.

Lemma status_lookup name (L : gmap string bool) :
  get_scraper_status L !! name = probe <$> (L !! name).
Proof. unfold get_scraper_status. apply lookup_fmap. Qed.

(** Replacing one caller moves the count by that caller's share. *)
Lemma count_insert p (pool : list caller) i c c' :
  pool !! i = Some c ->
  (count p (<[i := c']> pool) + (if p c then 1 else 0)
   = count p pool + (if p c' then 1 else 0))%nat.
Proof.
  revert i. induction pool as [|d pool IH]; intros [|i] H; simpl in *;
    try discriminate.
  - injection H as ->. lia.
  - specialize (IH i H). lia.
Qed.

Lemma count_all_pending name (pool : list caller) :
  Forall (fun c => c = Pending name) pool -> count (is_granted name) pool = 0%nat.
Proof.
  induction 1 as [|c pool Hc _ IH]; simpl; [reflexivity|].
  subst c. simpl. exact IH.
Qed.

Lemma is_granted_same name : is_granted name (Granted name) = true.
Proof. simpl. apply String.eqb_refl. Qed.

Lemma is_rejected_same name : is_rejected name (Rejected name) = true.
Proof. simpl. apply String.eqb_refl. Qed.

Lemma Forall_list_insert {A} (P : A -> Prop) (l : list A) i x :
  Forall P l -> P x -> Forall P (<[i := x]> l).
Proof.
  intros Hl Hx. revert i. induction Hl as [|y l Hy Hl IH]; intros [|i]; simpl;
    constructor; auto.
Qed.

(** One scheduling decision keeps the guard with at most one holder. *)
Lemma sched_step_one_holder name i cfg :
  one_holder name cfg -> one_holder name (sched_step i cfg).
Proof.
  destruct cfg as [pool L]. unfold one_holder, sched_step. simpl.
  intros [Hab Hinv].
  destruct (pool !! i) as [c|] eqn:Hi; simpl; [|tauto].
  assert (Hc : about name c).
  { rewrite Forall_forall in Hab. apply Hab.
    eapply list_elem_of_lookup_2; eauto. }
  destruct Hc as [-> | [-> | ->]]; simpl.
  - destruct Hinv as [[Hfree Hall] | [Hheld Hone]].
    + rewrite (acquire_idle _ _ Hfree). simpl. split.
      * apply Forall_list_insert; [assumption | right; left; reflexivity].
      * right. split; [apply lookup_insert_eq|].
        pose proof (count_insert (is_granted name) pool i (Pending name)
                      (Granted name) Hi) as Hcnt.
        rewrite is_granted_same in Hcnt. simpl in Hcnt.
        unfold granted_count. rewrite (count_all_pending name pool Hall) in Hcnt.
        lia.
    + rewrite (acquire_held _ _ Hheld). simpl. split.
      * apply Forall_list_insert; [assumption | right; right; reflexivity].
      * right. split; [assumption|].
        pose proof (count_insert (is_granted name) pool i (Pending name)
                      (Rejected name) Hi) as Hcnt.
        simpl in Hcnt. unfold granted_count in *. lia.
  - rewrite list_insert_id by assumption. tauto.
  - rewrite list_insert_id by assumption. tauto.
Qed.

Lemma run_schedule_one_holder name sched cfg :
  one_holder name cfg -> one_holder name (run_schedule sched cfg).
Proof.
  unfold run_schedule. revert cfg.
  induction sched as [|i sched IH]; intros cfg H; simpl; [exact H|].
  apply IH. now apply sched_step_one_holder.
Qed.

Lemma sched_step_length i cfg : length (sched_step i cfg).1 = length cfg.1.
Proof.
  destruct cfg as [pool L]. unfold sched_step. simpl.
  destruct (pool !! i) as [c|]; [|reflexivity].
  destruct (try_begin c L). simpl. apply length_insert.
Qed.

Lemma run_schedule_length sched cfg :
  length (run_schedule sched cfg).1 = length cfg.1.
Proof.
  unfold run_schedule. revert cfg.
  induction sched as [|i sched IH]; intros cfg; simpl; [reflexivity|].
  rewrite IH. apply sched_step_length.
Qed.

(** When everybody has returned, each caller was either granted or rejected. *)
Lemma returned_split name (pool : list caller) :
  Forall (about name) pool -> all_returned pool = true ->
  (granted_count name pool + rejected_count name pool = length pool)%nat.
Proof.
  unfold granted_count, rejected_count, all_returned.
  induction 1 as [|c pool Hc _ IH]; simpl; [reflexivity|].
  intros Hret. apply andb_prop in Hret as [Hc' Hrest]. specialize (IH Hrest).
  destruct Hc as [-> | [-> | ->]]; simpl in *; try discriminate;
    rewrite String.eqb_refl; lia.
Qed.

(** Any number of concurrent callers: once all have returned, exactly one
    holds the guard and all the others were rejected. *)
Lemma concurrent_try_begin (L : gmap string bool) name n sched :
  L !! name = Some false -> (0 < n)%nat ->
  all_returned (run_schedule sched (replicate n (Pending name), L)).1 = true ->
  granted_count name (run_schedule sched (replicate n (Pending name), L)).1 = 1%nat
  /\ rejected_count name (run_schedule sched (replicate n (Pending name), L)).1
     = (n - 1)%nat
  /\ (run_schedule sched (replicate n (Pending name), L)).2 !! name = Some true.
Proof.
  intros Hfree Hn Hret.
  set (start := (replicate n (Pending name), L)) in *.
  assert (Hinit : one_holder name start).
  { split; simpl.
    - apply Forall_forall. intros c Hc.
      apply elem_of_replicate in Hc as [-> _]. left. reflexivity.
    - left. split; [assumption|]. apply Forall_forall. intros c Hc.
      now apply elem_of_replicate in Hc as [-> _]. }
  pose proof (run_schedule_one_holder name sched start Hinit) as [Hab Hinv].
  pose proof (run_schedule_length sched start) as Hlen.
  simpl in Hlen. rewrite length_replicate in Hlen.
  pose proof (returned_split name _ Hab Hret) as Hsplit.
  destruct Hinv as [[_ Hall] | [Hheld Hone]].
  - exfalso. destruct ((run_schedule sched start).1) as [|c pool] eqn:E.
    + simpl in Hlen. lia.
    + inversion Hall as [|? ? Hc _]; subst. simpl in Hret. discriminate.
  - repeat split; [assumption | lia | assumption].
Qed.

(** C1. Two concurrent non-blocking acquires for the same idle source, in
    whatever order the scheduler runs them: exactly one returns true and the
    source is marked running, the other is rejected. *)
Theorem try_begin_exactly_one (L : gmap string bool) (name : string)
    (sched : list nat) :
  L !! name = Some false ->
  all_returned (run_schedule sched ([Pending name; Pending name], L)).1 = true ->
  granted_count name (run_schedule sched ([Pending name; Pending name], L)).1
    = 1%nat
  /\ rejected_count name (run_schedule sched ([Pending name; Pending name], L)).1
     = 1%nat
  /\ get_scraper_status
       (run_schedule sched ([Pending name; Pending name], L)).2 !! name
     = Some running.
Proof.
  intros Hfree Hret.
  destruct (concurrent_try_begin L name 2 sched Hfree ltac:(lia) Hret)
    as (Hg & Hr & Hl).
  repeat split; [exact Hg | exact Hr |].
  rewrite status_lookup. simpl in Hl. rewrite Hl. reflexivity.
Qed.

Lemma try_begin_exactly_one_witness :
  _scraper_locks !! "biziday" = Some false
  /\ all_returned
       (run_schedule [1%nat; 0%nat]
          ([Pending "biziday"; Pending "biziday"], _scraper_locks)).1 = true
  /\ granted_count "biziday"
       (run_schedule [1%nat; 0%nat]
          ([Pending "biziday"; Pending "biziday"], _scraper_locks)).1 = 1%nat
  /\ rejected_count "biziday"
       (run_schedule [1%nat; 0%nat]
          ([Pending "biziday"; Pending "biziday"], _scraper_locks)).1 = 1%nat
  /\ get_scraper_status
       (run_schedule [1%nat; 0%nat]
          ([Pending "biziday"; Pending "biziday"], _scraper_locks)).2 !! "biziday"
     = Some running.
Proof.
  split; [vm_compute; reflexivity|]. split; [vm_compute; reflexivity|].
  apply (try_begin_exactly_one _scraper_locks "biziday" [1%nat; 0%nat]);
    vm_compute; reflexivity.
Defined.

(** A run that finds its guard free leaves the lock table as it found it,
    however its [try] block ends. *)
Lemma guarded_run_releases {V} name (rejected : V) handler body
    (L : gmap string bool) :
  L !! name = Some false ->
  (guarded_run name rejected handler body L).2 = L.
Proof.
  intros Hfree. unfold guarded_run. rewrite (acquire_idle _ _ Hfree).
  rewrite release_held by apply lookup_insert_eq. simpl.
  rewrite insert_insert_eq. now apply insert_id.
Qed.

(** A run that finds its guard held is dropped and touches nothing. *)
Lemma guarded_run_rejected {V} name (rejected : V) handler body
    (L : gmap string bool) :
  L !! name = Some true ->
  guarded_run name rejected handler body L = (Ok rejected, L).
Proof.
  intros Hheld. unfold guarded_run. now rewrite (acquire_held _ _ Hheld).
Qed.

Lemma idle_status name (L : gmap string bool) :
  L !! name = Some false -> get_scraper_status L !! name = Some idle.
Proof. intros H. rewrite status_lookup, H. reflexivity. Qed.

(** C6. A run that acquired its guard releases it on the [finally] path,
    whether its [try] block returns or raises (an exception the handlers do
    not catch included): afterwards the status of the source is idle. *)
Theorem run_releases_guard (L : gmap string bool) (news : body_end unit)
    (fb : body_end fb_result) :
  (L !! "biziday" = Some false ->
   get_scraper_status (run_biziday_scraper news L).2 !! "biziday" = Some idle)
  /\ (L !! "adevarul" = Some false ->
      get_scraper_status (run_adevarul_scraper news L).2 !! "adevarul" = Some idle)
  /\ (L !! "facebook" = Some false ->
      get_scraper_status (run_facebook_scraper fb L).2 !! "facebook" = Some idle).
Proof.
  repeat split; intros Hfree;
    unfold run_biziday_scraper, run_adevarul_scraper, run_facebook_scraper;
    rewrite guarded_run_releases by assumption; now apply idle_status.
Qed.

Lemma run_releases_guard_witness :
  get_scraper_status
    (run_biziday_scraper (Throws BaseExc) _scraper_locks).2 !! "biziday"
    = Some idle
  /\ get_scraper_status
       (run_adevarul_scraper (Returns tt) _scraper_locks).2 !! "adevarul"
     = Some idle
  /\ get_scraper_status
       (run_facebook_scraper (Throws OtherException) _scraper_locks).2 !! "facebook"
     = Some idle.
Proof.
  destruct (run_releases_guard _scraper_locks (Throws BaseExc)
              (Throws OtherException)) as (Hb & _ & Hf).
  destruct (run_releases_guard _scraper_locks (Returns tt)
              (Throws OtherException)) as (_ & Ha & _).
  split; [apply Hb; reflexivity|].
  split; [apply Ha; reflexivity | apply Hf; reflexivity].
Defined.

End GuardFacts.

(** ** Scheduler and manual trigger *)

Section SchedulerFacts.

Import Guard Ingest Scheduler Api.

Lemma recurring_jobs_no_facebook testing_mode entry :
  Forall (fun j => func j <> Scheduler.run_facebook_scraper)
         (recurring_jobs testing_mode entry).
Proof.
  destruct entry as [source_name sc]. unfold recurring_jobs.
  destruct (negb (enabled sc)); [constructor|].
  destruct (String.eqb source_name "biziday");
    [repeat constructor; simpl; discriminate|].
  destruct (String.eqb source_name "adevarul");
    [repeat constructor; simpl; discriminate|].
  destruct (String.eqb source_name "facebook"); constructor.
Qed.

Lemma scheduler_no_facebook config testing_mode :
  Forall (fun j => func j <> Scheduler.run_facebook_scraper)
         (start_scheduler_in_context config testing_mode).
Proof.
  unfold start_scheduler_in_context. apply Forall_app. split.
  - induction config as [|entry config IH]; simpl; [constructor|].
    apply Forall_app. split; [apply recurring_jobs_no_facebook | exact IH].
  - repeat constructor; simpl; discriminate.
Qed.

(** C9. No job of the scheduler, recurring or initial, calls the Facebook
    scraper, whatever the configuration; the manual endpoint calls it
    through the same guard: a request made while a Facebook run is in
    progress is answered 400 "already running" and changes nothing, and a
    request made while the guard is free runs the scrape and frees it. *)
Theorem facebook_manual_only (config : list (string * source_config))
    (testing_mode : bool) (data : gmap string jval) (raw : string)
    (body : body_end fb_result) (L : gmap string bool) :
  Forall (fun j => func j <> Scheduler.run_facebook_scraper)
         (start_scheduler_in_context config testing_mode)
  /\ (data !! "profile_input" = Some (JStr raw) ->
      truthy_str (strip raw) = true ->
      (L !! "facebook" = Some true ->
       scrape_facebook (Some data) body L
         = (mkResponse 400 fb_already_running, L))
      /\ (L !! "facebook" = Some false ->
          forall action, body = Returns (FbSuccess action) ->
          scrape_facebook (Some data) body L
            = (mkResponse 200 (FbSuccess action), L))).
Proof.
  split; [apply scheduler_no_facebook|].
  intros Hin Hraw. unfold scrape_facebook. rewrite Hin, Hraw. simpl.
  split.
  - intros Hheld. unfold Guard.run_facebook_scraper.
    now rewrite guarded_run_rejected by assumption.
  - intros Hfree action ->.
    pose proof (guarded_run_releases "facebook" fb_already_running
                  (fun _ => FbError "Facebook scraper wrapper exception")
                  (Returns (FbSuccess action)) L Hfree) as Hrel.
    unfold Guard.run_facebook_scraper.
    destruct (guarded_run _ _ _ _ L) as [r L'] eqn:E. simpl in Hrel. subst L'.
    unfold guarded_run in E. rewrite (acquire_idle _ _ Hfree) in E.
    rewrite release_held in E by apply lookup_insert_eq.
    injection E as <- _. reflexivity.
Qed.

Lemma facebook_manual_only_witness :
  Forall (fun j => func j <> Scheduler.run_facebook_scraper)
         (start_scheduler_in_context fallback_config false)
  /\ scrape_facebook (Some (<["profile_input" := JStr " zuck "]> ∅))
       (Returns (FbSuccess "created")) (<["facebook" := true]> _scraper_locks)
     = (mkResponse 400 fb_already_running, <["facebook" := true]> _scraper_locks)
  /\ scrape_facebook (Some (<["profile_input" := JStr " zuck "]> ∅))
       (Returns (FbSuccess "created")) _scraper_locks
     = (mkResponse 200 (FbSuccess "created"), _scraper_locks).
Proof.
  destruct (facebook_manual_only fallback_config false
              (<["profile_input" := JStr " zuck "]> ∅) " zuck "
              (Returns (FbSuccess "created"))
              (<["facebook" := true]> _scraper_locks)) as [Hjobs Hreq].
  destruct (facebook_manual_only fallback_config false
              (<["profile_input" := JStr " zuck "]> ∅) " zuck "
              (Returns (FbSuccess "created")) _scraper_locks) as [_ Hreq'].
  split; [exact Hjobs|]. split.
  - apply Hreq; reflexivity.
  - apply Hreq' with (action := "created"); reflexivity.
Defined.

End SchedulerFacts.

(** ** Bounded extractor *)

Section ExtractorFacts.

Import Extractor.

Variables response soup : Type.
Variable requests_get : string -> res response.
Variable BeautifulSoup : response -> res soup.
Variables extract_adevarul_content extract_biziday_content
          extract_generic_content : soup -> option string.

Local Abbreviation extract :=
  (extract_article_content response soup requests_get BeautifulSoup
     extract_adevarul_content extract_biziday_content extract_generic_content).
Local Abbreviation chosen :=
  (select_content soup extract_adevarul_content extract_biziday_content
     extract_generic_content).

Lemma outer_except_total e :
  is_Exception e = true -> outer_except e = Ok None.
Proof.
  intros H. unfold outer_except. rewrite H. now destruct (is_RequestException e).
Qed.

Lemma accept_long content c : accept content = Some c -> 100 < len c.
Proof.
  unfold accept. destruct content as [c'|]; [|discriminate].
  destruct (truthy_str c'); simpl; [|discriminate].
  destruct (100 <? len c') eqn:E; [|discriminate].
  intros [= <-]. now apply Z.ltb_lt.
Qed.

Lemma accept_short content :
  (content = None \/ exists c, content = Some c /\ len c <= 100) ->
  accept content = None.
Proof.
  intros [-> | (c & -> & Hc)]; [reflexivity|].
  unfold accept. replace (100 <? len c) with false.
  - now rewrite andb_false_r.
  - symmetry. apply Z.ltb_ge. exact Hc.
Qed.

(** C8. Whatever the network and the parser do, [extract_article_content]
    returns to its caller instead of raising; when the page was fetched and
    parsed but the extracted content is absent or has at most 100
    characters, it returns [None]; content is returned only when it has more
    than 100 characters. *)
Theorem extract_article_content_never_raises (url : string) :
  only_exceptions (requests_get url) = true ->
  (forall r, only_exceptions (BeautifulSoup r) = true) ->
  (exists v, extract url = Ok v)
  /\ (forall r s, requests_get url = Ok r -> BeautifulSoup r = Ok s ->
      (chosen url s = None \/ exists c, chosen url s = Some c /\ len c <= 100) ->
      extract url = Ok None)
  /\ (forall c, extract url = Ok (Some c) -> 100 < len c).
Proof.
  intros Hget Hsoup. unfold extract_article_content, fetch.
  destruct (requests_get url) as [r|e] eqn:Eget; simpl in Hget.
  - specialize (Hsoup r).
    destruct (BeautifulSoup r) as [s|e] eqn:Esoup; simpl in Hsoup.
    + split; [eauto|]. split.
      * intros r' s' [= <-] Hs' Hshort. rewrite Esoup in Hs'.
        injection Hs' as <-. now rewrite accept_short.
      * intros c [= Hc]. now apply accept_long in Hc.
    + rewrite (outer_except_total e Hsoup). split; [eauto|]. split.
      * reflexivity.
      * discriminate.
  - destruct (is_RequestException e).
    + split; [eauto|]. split; [discriminate | discriminate].
    + rewrite (outer_except_total e Hget).
      split; [eauto|]. split; [discriminate | discriminate].
Qed.

End ExtractorFacts.

Lemma extract_article_content_never_raises_witness :
  Extractor.extract_article_content unit unit (fun _ => Ok tt) (fun _ => Ok tt)
    (fun _ => Some "too short") (fun _ => None) (fun _ => None)
    "https://adevarul.ro/stiri/1.html" = Ok None.
Proof.
  destruct (extract_article_content_never_raises unit unit
              (fun _ => Ok tt) (fun _ => Ok tt)
              (fun _ => Some "too short") (fun _ => None) (fun _ => None)
              "https://adevarul.ro/stiri/1.html") as (_ & Hshort & _).
  - reflexivity.
  - intros r. reflexivity.
  - apply (Hshort tt tt); [reflexivity | reflexivity |].
    right. exists "too short". split; [reflexivity | vm_compute; discriminate].
Defined.

(** ** Change detector and ingestion coordinator *)

Section IngestFacts.

Import Ingest.

Variable fromisoformat : string -> option Z.
Variable ratio : string -> string -> Q.
Variable generate_summary_from_content : string -> Z -> string.
Variable cfg : config.
Variable w : world.

Local Abbreviation parse := (parse_field fromisoformat).
Local Abbreviation should_check := (should_check_article_for_updates fromisoformat cfg).
Local Abbreviation needs_update := (article_needs_update ratio).
Local Abbreviation refresh :=
  (refresh_content fromisoformat generate_summary_from_content cfg w).
Local Abbreviation check :=
  (check_duplicate fromisoformat ratio generate_summary_from_content cfg w).
Local Abbreviation step :=
  (process fromisoformat ratio generate_summary_from_content cfg w).
Local Abbreviation run_loop :=
  (loop fromisoformat ratio generate_summary_from_content cfg w).
Local Abbreviation save :=
  (save_articles fromisoformat ratio generate_summary_from_content cfg w).

Lemma checks_in_app l1 l2 : checks_in (l1 ++ l2) = checks_in l1 + checks_in l2.
Proof. induction l1 as [|e l1 IH]; simpl; [reflexivity | rewrite IH; lia]. Qed.

(** the re-extraction block prints no "Checking" line *)
Lemma refresh_prints_no_check src k existing article_data stamp :
  checks_in (refresh src k existing article_data stamp).2 = 0.
Proof.
  unfold refresh_content.
  destruct (default true (enable_content_refresh cfg)); [|reflexivity].
  destruct (attempt_at w k) as [|wk]; [reflexivity|].
  destruct (er_error (extract_with_guaranteed_timeout wk)) as [msg|];
    [destruct (truthy_str msg)|]; reflexivity.
Qed.

Lemma check_capped src i existing article_data st st' :
  capped cfg st -> check src i existing article_data st = Ok st' -> capped cfg st'.
Proof.
  intros [Hrange Hlog]. unfold check_duplicate.
  destruct (checked_count st <? max_checks_per_session cfg) eqn:Hcap.
  - apply Z.ltb_lt in Hcap.
    destruct (should_check (now_at w i) existing article_data) as [[|]|e];
      simpl; [| intros [= <-]; now split | discriminate].
    destruct (needs_update existing article_data _).
    + destruct (parse article_data "updated_at") as [n|];
        [destruct (updated_at existing) as [e|];
         [destruct (e <? n) eqn:Hnew|]|].
      * pose proof (refresh_prints_no_check src (attempts st) existing
                      article_data (Some n)) as Hp.
        destruct (refresh _ _ _ _ _) as [[row k] printed]. simpl in Hp.
        intros [= <-]. split; simpl; [lia|].
        rewrite checks_in_app. simpl. rewrite checks_in_app, Hp. simpl. lia.
      * intros [= <-]. split; simpl; [lia|].
        rewrite !checks_in_app. simpl. lia.
      * intros [= <-]. split; simpl; [lia|].
        rewrite !checks_in_app. simpl. lia.
      * intros [= <-]. split; simpl; [lia|].
        rewrite !checks_in_app. simpl. lia.
    + intros [= <-]. split; simpl; [lia|].
      rewrite checks_in_app. simpl. lia.
  - simpl. intros [= <-]. now split.
Qed.

Lemma save_new_counts src article_data lnk st st' :
  save_new fromisoformat src article_data lnk st = Ok st' ->
  checked_count st' = checked_count st /\ log st' = log st.
Proof.
  unfold save_new.
  destruct (getitem article_data "title") as [t|]; simpl; [|discriminate].
  destruct (getitem article_data "summary") as [sm|]; simpl; [|discriminate].
  destruct lnk; [discriminate|]. intros [= <-]. now split.
Qed.

Lemma process_capped src i article_data st st' :
  capped cfg st -> step src i article_data st = Ok st' -> capped cfg st'.
Proof.
  intros Hcap. unfold process.
  destruct (getitem article_data "link") as [lnk|]; simpl; [|discriminate].
  destruct (query_first lnk (session st)) as [[existing|]|]; simpl;
    [| |discriminate].
  - now apply check_capped.
  - intros H. apply save_new_counts in H as [Hc Hl].
    unfold capped. now rewrite Hc, Hl.
Qed.

Lemma loop_capped src articles_data : forall i st,
  capped cfg st -> capped cfg (run_loop src i articles_data st).1.
Proof.
  induction articles_data as [|article_data rest IH]; intros i st Hcap; simpl;
    [exact Hcap|].
  destruct (step src i article_data st) as [st'|e] eqn:E; [|exact Hcap].
  apply IH. eapply process_capped; eauto.
Qed.

(** C5. In one run of [save_articles] the number of duplicates checked for
    updates (the counter, and the "Checking" lines printed) never exceeds
    [max_checks_per_session], however many duplicates are eligible and
    however the run ends. *)
Theorem checks_never_exceed_cap (articles_data : list (gmap string jval))
    (src : string) (db : gmap string NewsArticle) :
  0 <= max_checks_per_session cfg ->
  checked_count (final (save articles_data src db)) <= max_checks_per_session cfg
  /\ checks_in (log (final (save articles_data src db)))
     = checked_count (final (save articles_data src db)).
Proof.
  intros Hcap.
  assert (Hstart : capped cfg (start db)) by (split; simpl; [lia | reflexivity]).
  pose proof (loop_capped src articles_data 0%nat (start db) Hstart) as H.
  unfold save_articles.
  destruct (run_loop src 0%nat articles_data (start db)) as [st [e|]];
    simpl in H |- *.
  - destruct H as [Hr Hl]. split; [lia | exact Hl].
  - destruct (flush (session st)); simpl; destruct H as [Hr Hl];
      (split; [lia | exact Hl]).
Qed.

(** *** The classification *)





(** the test [length_diff_percent > 5], in integers *)
Lemma percent_over_five old_length new_length :
  0 < old_length ->
  5 * old_length < 100 * Z.abs (new_length - old_length) ->
  Qlt_bool (inject_Z 5) (length_diff_percent old_length new_length) = true.
Proof.
  intros Hold Hdiff. unfold length_diff_percent.
  replace (0 <? old_length) with true by (symmetry; now apply Z.ltb_lt).
  unfold Qlt_bool. apply negb_true_iff.
  destruct (Qle_bool _ _) eqn:E; [|reflexivity]. exfalso.
  apply Qle_bool_iff in E. revert E.
  destruct old_length as [|p|p]; try lia.
  unfold Qle, Qmult, Qdiv, Qinv, inject_Z. simpl. lia.
Qed.

Lemma content_changed_by_length existing article_data old_content new_content :
  content existing = Some old_content ->
  article_data !! "content" = Some (JStr new_content) ->
  truthy_str old_content = true -> truthy_str new_content = true ->
  5 * len old_content < 100 * Z.abs (len new_content - len old_content) ->
  content_changed existing article_data = true.
Proof.
  intros Hold Hnew Ho Hn Hdiff. unfold content_changed.
  rewrite Hold, Hnew, Ho, Hn. simpl. apply percent_over_five; [|exact Hdiff].
  unfold len. destruct old_content; [discriminate | simpl; lia].
Qed.

(** *** What a check writes *)

(** A duplicate classified CHANGED whose candidate stamp is present but not
    newer than the stored one: the row is left as it was, and the run still
    counts it as updated. *)
Lemma changed_but_not_newer src i existing article_data st n e :
  checked_count st < max_checks_per_session cfg ->
  should_check (now_at w i) existing article_data = Ok true ->
  parse article_data "updated_at" = Some n ->
  updated_at existing = Some e -> n <= e ->
  needs_update existing article_data (Some n) = true ->
  exists st', check src i existing article_data st = Ok st'
    /\ session st' = <[link existing := existing]> (session st)
    /\ updated_count st' = updated_count st + 1
    /\ attempts st' = attempts st.
Proof.
  intros Hcap Hcheck Hparse He Hle Hneeds. unfold check_duplicate.
  replace (checked_count st <? _) with true by (symmetry; now apply Z.ltb_lt).
  rewrite Hcheck. simpl. rewrite Hparse, Hneeds, He.
  replace (e <? n) with false by (symmetry; now apply Z.ltb_ge).
  eexists. split; [reflexivity|]. simpl. auto.
Qed.

(** A duplicate classified CHANGED while a stamp is missing on either side:
    the candidate's fields are taken as they are and no extraction is made. *)
Lemma changed_without_stamps src i existing article_data st :
  checked_count st < max_checks_per_session cfg ->
  should_check (now_at w i) existing article_data = Ok true ->
  parse article_data "updated_at" = None \/ updated_at existing = None ->
  needs_update existing article_data (parse article_data "updated_at") = true ->
  exists st', check src i existing article_data st = Ok st'
    /\ session st'
       = <[link existing :=
             basic_update existing article_data (parse article_data "updated_at")]>
           (session st)
    /\ attempts st' = attempts st
    /\ log st'
       = (log st ++ [Checking (link existing); Updated (link existing)])%list.
Proof.
  intros Hcap Hcheck Hmiss Hneeds. unfold check_duplicate.
  replace (checked_count st <? _) with true by (symmetry; now apply Z.ltb_lt).
  rewrite Hcheck. simpl. rewrite Hneeds.
  destruct Hmiss as [Hp | He].
  - rewrite Hp. eexists. split; [reflexivity|]. simpl. auto.
  - rewrite He. destruct (parse article_data "updated_at");
      (eexists; split; [reflexivity|]; simpl; auto).
Qed.




(** *** The single handler around the loop *)

Lemma malformed_timestamp_is_absent article_data k s :
  article_data !! k = Some (JStr s) -> fromisoformat (replace_Z s) = None ->
  parse article_data k = None.
Proof.
  intros Hk Hs. unfold parse_field. rewrite Hk. simpl.
  now destruct (truthy_str s).
Qed.













End IngestFacts.

(** ** Worked runs *)

Section WorkedRuns.

Import Ingest Sample.

Lemma checks_never_exceed_cap_witness :
  0 <= max_checks_per_session UPDATE_CHECK_CONFIG
  /\ checked_count
       (final (run_sample UPDATE_CHECK_CONFIG stalled
                 [candidate (JStr (times 50 "A")) None] (db None)))
     <= max_checks_per_session UPDATE_CHECK_CONFIG
  /\ checks_in
       (log (final (run_sample UPDATE_CHECK_CONFIG stalled
                      [candidate (JStr (times 50 "A")) None] (db None))))
     = checked_count
         (final (run_sample UPDATE_CHECK_CONFIG stalled
                   [candidate (JStr (times 50 "A")) None] (db None))).
Proof.
  split; [simpl; lia|].
  apply (checks_never_exceed_cap fromisoformat ratio
           generate_summary_from_content UPDATE_CHECK_CONFIG stalled
           [candidate (JStr (times 50 "A")) None] "Biziday" (db None)).
  simpl. lia.
Defined.







(** C7. The stored article and the candidate carry the same stamp, the
    candidate's content is twice as long. The duplicate is checked and
    classified CHANGED, the run counts and prints it as updated, no
    extraction is made, and the stored row, its content included, is what
    it was: the candidate's content is not taken. *)
Theorem content_change_not_applied :
  checked_count
    (final (run_sample UPDATE_CHECK_CONFIG stalled
              [candidate (JStr (times 100 "A"))
                 (Some (JStr "2024-03-01T10:00:00"))] (db (Some T0)))) = 1
  /\ article_needs_update ratio (stored (Some T0))
       (candidate (JStr (times 100 "A")) (Some (JStr "2024-03-01T10:00:00")))
       (parse_field fromisoformat
          (candidate (JStr (times 100 "A")) (Some (JStr "2024-03-01T10:00:00")))
          "updated_at") = true
  /\ log (final (run_sample UPDATE_CHECK_CONFIG stalled
                   [candidate (JStr (times 100 "A"))
                      (Some (JStr "2024-03-01T10:00:00"))] (db (Some T0))))
     = [Checking "https://x/1"; Updated "https://x/1"]
  /\ updated_count
       (final (run_sample UPDATE_CHECK_CONFIG stalled
                 [candidate (JStr (times 100 "A"))
                    (Some (JStr "2024-03-01T10:00:00"))] (db (Some T0)))) = 1
  /\ db_after (run_sample UPDATE_CHECK_CONFIG stalled
                 [candidate (JStr (times 100 "A"))
                    (Some (JStr "2024-03-01T10:00:00"))] (db (Some T0)))
     = db (Some T0)
  /\ content <$> db (Some T0) !! "https://x/1" = Some (Some (times 50 "A")).
Proof. vm_compute. repeat split. Qed.

End WorkedRuns.

(** ** Profile refresh *)

Section ProfileFacts.

Import Profile.

Variable datetime : Type.
Variable fromisoformat : string -> option datetime.
Variable str_datetime : datetime -> string.
Variable now : datetime.

Local Abbreviation state := (Profile.state datetime).
Local Abbreviation set_field := (update_field_if_different datetime str_datetime).
Local Abbreviation set_strings := (update_strings datetime str_datetime).
Local Abbreviation set_count := (update_count datetime str_datetime).
Local Abbreviation set_flag := (update_flag datetime str_datetime).
Local Abbreviation set_last_scraped :=
  (update_last_scraped datetime fromisoformat str_datetime now).
Local Abbreviation update :=
  (update_facebook_profile datetime fromisoformat str_datetime now).

Lemma keeps_refl f (st : state) : keeps f st st.
Proof. now split. Qed.

Lemma keeps_trans f (st1 st2 st3 : state) :
  keeps f st1 st2 -> keeps f st2 st3 -> keeps f st1 st3.
Proof.
  intros [H1 U1] [H2 U2]. split; [now rewrite H2 | auto].
Qed.

Lemma set_field_keeps f g v (st : state) :
  String.eqb f g = false -> keeps f st (set_field g v st).
Proof.
  intros Hne. apply String.eqb_neq in Hne. unfold update_field_if_different.
  destruct (negb _); [|apply keeps_refl].
  split; simpl; [|reflexivity]. rewrite lookup_insert_ne; congruence.
Qed.

Lemma set_field_updated g v (st : state) :
  updated st = true -> updated (set_field g v st) = true.
Proof.
  intros H. unfold update_field_if_different. now destruct (negb _).
Qed.

(** writing a string over a string: the column holds the new one *)
Lemma set_field_string f d s (st : state) :
  existing_profile st !! f = Some (AStr s) ->
  existing_profile (set_field f (AStr d) st) !! f = Some (AStr d)
  /\ (s <> d -> updated (set_field f (AStr d) st) = true).
Proof.
  intros Hs. unfold update_field_if_different. rewrite Hs. simpl.
  destruct (String.eqb d s) eqn:E; simpl.
  - apply String.eqb_eq in E. subst d. split; [exact Hs | congruence].
  - split; [apply lookup_insert_eq | reflexivity].
Qed.

Lemma set_strings_keeps data f fields : forall st : state,
  mentions f fields = false -> keeps f st (set_strings data fields st).
Proof.
  unfold update_strings.
  induction fields as [|[g dg] fields IH]; intros st Hm; simpl;
    [apply keeps_refl|].
  simpl in Hm. apply orb_false_elim in Hm as [Hg Hrest].
  eapply keeps_trans; [|apply IH; exact Hrest].
  now apply set_field_keeps.
Qed.

Lemma mentions_in f d fields : In (f, d) fields -> mentions f fields = true.
Proof.
  unfold mentions. intros H. apply existsb_exists. exists (f, d).
  split; [exact H | apply String.eqb_refl].
Qed.

Lemma safe_get_string_default data key dflt :
  not_a_string (data !! key) = true -> safe_get_string data key dflt = dflt.
Proof.
  unfold not_a_string, safe_get_string.
  destruct (data !! key) as [[]|]; try reflexivity. discriminate.
Qed.

(** a field of the list whose fresh value is not a string gets its default *)
Lemma set_strings_default data f d s fields : forall st : state,
  distinct fields = true -> In (f, d) fields ->
  not_a_string (data !! f) = true ->
  existing_profile st !! f = Some (AStr s) ->
  existing_profile (set_strings data fields st) !! f = Some (AStr d)
  /\ (s <> d -> updated (set_strings data fields st) = true).
Proof.
  induction fields as [|[g dg] fields IH]; intros st Hd Hin Hdata Hs;
    [destruct Hin|].
  simpl in Hd. apply andb_prop in Hd as [Hfresh Hd].
  apply negb_true_iff in Hfresh.
  change (set_strings data ((g, dg) :: fields) st)
    with (set_strings data fields
            (set_field g (AStr (safe_get_string data g dg)) st)).
  destruct Hin as [[= -> ->] | Hin].
  - rewrite (safe_get_string_default data f d Hdata).
    destruct (set_field_string f d s st Hs) as [Hset Hupd].
    destruct (set_strings_keeps data f fields (set_field f (AStr d) st) Hfresh)
      as [Hk Hu].
    rewrite Hk. split; [exact Hset | auto].
  - assert (Hne : String.eqb f g = false).
    { destruct (String.eqb f g) eqn:E; [|reflexivity].
      apply String.eqb_eq in E. subst g.
      rewrite (mentions_in f d fields Hin) in Hfresh. discriminate. }
    destruct (set_field_keeps f g (AStr (safe_get_string data g dg)) st Hne)
      as [Hk _].
    apply IH; try assumption. now rewrite Hk.
Qed.

Lemma set_strings_updated data fields : forall st : state,
  updated st = true -> updated (set_strings data fields st) = true.
Proof.
  unfold update_strings.
  induction fields as [|[g dg] fields IH]; intros st H; simpl; [exact H|].
  apply IH. now apply set_field_updated.
Qed.

Lemma set_count_keeps data f key (st st' : state) :
  String.eqb f key = false -> set_count data key st = Ok st' -> keeps f st st'.
Proof.
  intros Hne. unfold update_count.
  destruct (default (PInt 0) (data !! key)) as [|s|z|b|l];
    try (intros [= <-]; apply keeps_refl).
  - destruct (isdigit s); [|intros [= <-]; apply keeps_refl].
    destruct (int_of_digits s) as [z|e]; simpl; [|discriminate].
    intros [= <-]. now apply set_field_keeps.
  - destruct (0 <=? z); intros [= <-];
      [now apply set_field_keeps | apply keeps_refl].
Qed.

Lemma set_flag_keeps data f key dflt (st : state) :
  String.eqb f key = false -> keeps f st (set_flag data key dflt st).
Proof.
  intros Hne. unfold update_flag.
  destruct (default (PBool dflt) (data !! key)); try apply keeps_refl.
  now apply set_field_keeps.
Qed.

Lemma set_last_scraped_keeps data f (st : state) :
  String.eqb f "last_scraped_at" = false ->
  keeps f st (set_last_scraped data st).
Proof.
  intros Hne. unfold update_last_scraped.
  destruct (data !! "last_scraped_at") as [v|]; [|apply keeps_refl].
  destruct (truthy v); [|apply keeps_refl].
  destruct v; try apply keeps_refl.
  destruct (fromisoformat _); now apply set_field_keeps.
Qed.

Lemma keeps_lookup f (st st' : state) x :
  keeps f st st' -> existing_profile st !! f = x ->
  existing_profile st' !! f = x.
Proof. intros [Hk _] H. now rewrite Hk. Qed.

Lemma keeps_written f (st st' : state) x (c : Prop) :
  keeps f st st' ->
  existing_profile st !! f = x /\ (c -> updated st = true) ->
  existing_profile st' !! f = x /\ (c -> updated st' = true).
Proof. intros [Hk Hu] [H Hc]. split; [now rewrite Hk | auto]. Qed.

(** one step back through a part of the refresh that leaves the column alone *)
Tactic Notation "skip_back" tactic3(lem) :=
  first [ eapply keeps_lookup; [lem; reflexivity|]
        | eapply keeps_written; [lem; reflexivity|] ].

(** one step back through a list of fields: it holds the column or not *)
Ltac strings_back data Hdata :=
  first [ skip_back (apply set_strings_keeps)
        | apply set_strings_default;
          [ reflexivity
          | simpl; repeat (first [left; reflexivity | right])
          | exact Hdata | ] ].

Lemma refresh_default data f d s (st0 st' : state) :
  In (f, d) string_fields ->
  not_a_string (data !! f) = true ->
  existing_profile st0 !! f = Some (AStr s) ->
  Profile.refresh datetime fromisoformat str_datetime now data st0 = Ok st' ->
  existing_profile st' !! f = Some (AStr d)
  /\ (s <> d -> updated st' = true).
Proof.
  intros Hin Hdata Hs. unfold Profile.refresh.
  destruct (accounts_str _) as [a|e]; cbn [bind]; [|discriminate].
  destruct (set_count data "followers_count" _) as [st4|e] eqn:H4; cbn [bind];
    [|discriminate].
  destruct (set_count data "friends_count" st4) as [st5|e] eqn:H5; cbn [bind];
    [|discriminate].
  destruct (set_count data "posts_count" st5) as [st6|e] eqn:H6; cbn [bind];
    [|discriminate].
  intros [= <-].
  unfold string_fields in Hin. simpl in Hin.
  repeat (destruct Hin as [Hin|Hin];
          [injection Hin as <- <-;
           skip_back (apply set_last_scraped_keeps);
           first [ skip_back (apply set_field_keeps)
                 | rewrite (safe_get_string_default data _ _ Hdata);
                   apply set_field_string ];
           skip_back (apply set_flag_keeps);
           skip_back (apply set_flag_keeps);
           (eapply keeps_lookup || eapply keeps_written);
             [eapply set_count_keeps; [|exact H6]; reflexivity|];
           (eapply keeps_lookup || eapply keeps_written);
             [eapply set_count_keeps; [|exact H5]; reflexivity|];
           (eapply keeps_lookup || eapply keeps_written);
             [eapply set_count_keeps; [|exact H4]; reflexivity|];
           strings_back data Hdata;
           skip_back (apply set_field_keeps);
           strings_back data Hdata;
           exact Hs
          |]).
  destruct Hin.
Qed.

(** C10 (amended). When the refresh does not raise, a string column read
    through [safe_get_string] whose fresh value is missing or is not a
    string is overwritten with the default of that call, and the profile
    counts as updated when that changes the stored string. The default is
    the empty string for every such column except [country] (["RO"]) and
    [scraping_method] (["manual"]). *)
Theorem missing_field_takes_default (stored : gmap string (attr datetime))
    (new_profile_data : gmap string pyval) (f d s : string) :
  In (f, d) string_fields ->
  not_a_string (new_profile_data !! f) = true ->
  stored !! f = Some (AStr s) ->
  result_error (update stored new_profile_data) = None ->
  profile_after (update stored new_profile_data) !! f = Some (AStr d)
  /\ (s <> d -> result_updated (update stored new_profile_data) = true)
  /\ (d = "" \/ (f = "country" /\ d = "RO")
      \/ (f = "scraping_method" /\ d = "manual")).
Proof.
  intros Hin Hdata Hs. unfold update_facebook_profile.
  destruct (Profile.refresh _ _ _ _ _ _) as [st|e] eqn:Href; [|discriminate].
  intros _.
  destruct (refresh_default new_profile_data f d s
              (mkState datetime stored false []) st Hin Hdata Hs Href)
    as [Hval Hupd].
  split; [|split].
  - destruct (updated st); simpl; [|exact Hval].
    rewrite lookup_insert_ne; [exact Hval|].
    intros <-. unfold string_fields in Hin. simpl in Hin.
    repeat (destruct Hin as [Hin|Hin]; [discriminate|]). destruct Hin.
  - intros Hne. rewrite (Hupd Hne). reflexivity.
  - unfold string_fields in Hin. simpl in Hin.
    repeat (destruct Hin as [Hin|Hin];
            [injection Hin as <- <-; first [left; reflexivity | auto]|]).
    destruct Hin.
Qed.

Lemma accounts_missing_cleared (stored : gmap string (attr datetime))
    (new_profile_data : gmap string pyval) (s : string) :
  new_profile_data !! "connected_accounts" = None ->
  stored !! "connected_accounts" = Some (AStr s) ->
  result_error (update stored new_profile_data) = None ->
  profile_after (update stored new_profile_data) !! "connected_accounts"
  = Some (AStr "").
Proof.
  intros Hdata Hs. unfold update_facebook_profile, Profile.refresh.
  rewrite Hdata. cbn [default from_option id accounts_str truthy bind].
  destruct (set_count new_profile_data "followers_count" _) as [st4|e] eqn:H4;
    cbn [bind]; [|discriminate].
  destruct (set_count new_profile_data "friends_count" st4) as [st5|e] eqn:H5;
    cbn [bind]; [|discriminate].
  destruct (set_count new_profile_data "posts_count" st5) as [st6|e] eqn:H6;
    cbn [bind]; [|discriminate].
  intros _.
  match goal with |- context [updated ?st] => set (final := st) end.
  assert (Hval : existing_profile final !! "connected_accounts" = Some (AStr "")).
  { subst final.
    skip_back (apply set_last_scraped_keeps).
    skip_back (apply set_field_keeps).
    skip_back (apply set_flag_keeps).
    skip_back (apply set_flag_keeps).
    eapply keeps_lookup; [eapply set_count_keeps; [|exact H6]; reflexivity|].
    eapply keeps_lookup; [eapply set_count_keeps; [|exact H5]; reflexivity|].
    eapply keeps_lookup; [eapply set_count_keeps; [|exact H4]; reflexivity|].
    skip_back (apply set_strings_keeps).
    apply (set_field_string "connected_accounts" "" s).
    skip_back (apply set_strings_keeps). exact Hs. }
  destruct (updated final); simpl; [|exact Hval].
  rewrite lookup_insert_ne; [exact Hval | discriminate].
Qed.

End ProfileFacts.

Section WorkedRefresh.

Import Profile SampleProfile.

(** C10, as stated, fails: the fresh data carries the name only; the stored
    country ["US"] becomes ["RO"] and the stored scraping method
    ["selenium"] becomes ["manual"], neither the empty string, while the
    stored bio is cleared. *)
Lemma omitted_country_not_cleared :
  name_only !! "country" = None
  /\ stored !! "country" = Some (AStr "US")
  /\ result_error refreshed = None
  /\ profile_after refreshed !! "country" = Some (AStr "RO")
  /\ profile_after refreshed !! "scraping_method" = Some (AStr "manual")
  /\ profile_after refreshed !! "bio" = Some (AStr "").
Proof. vm_compute. repeat split. Qed.

Lemma missing_field_takes_default_witness :
  profile_after refreshed !! "bio" = Some (AStr "")
  /\ ("Hello" <> "" -> result_updated refreshed = true)
  /\ ("" = "" \/ ("bio" = "country" /\ "" = "RO")
      \/ ("bio" = "scraping_method" /\ "" = "manual")).
Proof.
  apply (missing_field_takes_default Z fromisoformat str_datetime now stored
           name_only "bio" "" "Hello").
  - unfold string_fields. simpl. right. left. reflexivity.
  - reflexivity.
  - reflexivity.
  - reflexivity.
Defined.

End WorkedRefresh.

(** * Further properties *)

(** ** What a run of [save_articles] does to the table *)

Section TableFacts.

Import Ingest Table.

Variable fromisoformat : string -> option Z.
Variable ratio : string -> string -> Q.
Variable generate_summary_from_content : string -> Z -> string.
Variable cfg : config.
Variable w : world.

Local Abbreviation parse := (parse_field fromisoformat).
Local Abbreviation should_check := (should_check_article_for_updates fromisoformat cfg).
Local Abbreviation needs_update := (article_needs_update ratio).
Local Abbreviation refresh :=
  (refresh_content fromisoformat generate_summary_from_content cfg w).
Local Abbreviation check :=
  (check_duplicate fromisoformat ratio generate_summary_from_content cfg w).
Local Abbreviation step :=
  (process fromisoformat ratio generate_summary_from_content cfg w).
Local Abbreviation run_loop :=
  (loop fromisoformat ratio generate_summary_from_content cfg w).
Local Abbreviation save :=
  (save_articles fromisoformat ratio generate_summary_from_content cfg w).

Lemma same_identity_refl r : same_identity r r.
Proof. repeat split. Qed.

Lemma same_identity_trans r1 r2 r3 :
  same_identity r1 r2 -> same_identity r2 r3 -> same_identity r1 r3.
Proof.
  intros (A1 & A2 & A3 & A4) (B1 & B2 & B3 & B4).
  repeat split; congruence.
Qed.

Lemma basic_update_identity existing article_data stamp :
  same_identity existing (basic_update existing article_data stamp).
Proof. repeat split. Qed.

Lemma apply_extraction_identity existing article_data stamp r :
  same_identity existing
    (apply_extraction fromisoformat generate_summary_from_content existing
       article_data stamp r).
Proof.
  unfold apply_extraction.
  destruct (er_content r) as [c|]; [destruct (truthy_str c)|]; repeat split.
Qed.

Lemma refresh_identity src k existing article_data stamp :
  same_identity existing (refresh src k existing article_data stamp).1.1
  /\ (k <= (refresh src k existing article_data stamp).1.2 <= S k)%nat.
Proof.
  unfold refresh_content.
  destruct (default true (enable_content_refresh cfg)).
  - destruct (attempt_at w k) as [|wk].
    + split; [apply basic_update_identity | simpl; lia].
    + destruct (er_error _) as [msg|]; [destruct (truthy_str msg)|]; simpl;
        (split; [first [apply basic_update_identity
                       | apply apply_extraction_identity] | lia]).
  - split; [apply basic_update_identity | simpl; lia].
Qed.

Lemma check_effect src i d existing st st' l :
  session st !! l = Some existing ->
  check src i existing d st = Ok st' -> effect d st st'.
Proof.
  intros Hrow. unfold check_duplicate.
  destruct (checked_count st <? max_checks_per_session cfg); simpl;
    [|intros [= <-]; now apply Skipped].
  destruct (should_check (now_at w i) existing d) as [[|]|e]; simpl;
    [| intros [= <-]; now apply Skipped | discriminate].
  destruct (needs_update existing d _);
    [|intros [= <-]; now apply Looked].
  destruct (parse d "updated_at") as [n|];
    [destruct (updated_at existing) as [e|]; [destruct (e <? n)|]|].
  - destruct (refresh_identity src (attempts st) existing d (Some n))
      as [Hid Hk].
    destruct (refresh _ _ _ _ _) as [[row k] printed]. simpl in Hid, Hk.
    intros [= <-]. now apply (Rewrote d _ _ l existing row).
  - intros [= <-].
    apply (Rewrote d _ _ l existing existing); simpl; try lia;
      auto using same_identity_refl.
  - intros [= <-].
    apply (Rewrote d _ _ l existing (basic_update existing d (Some n))); simpl;
      try lia; auto using basic_update_identity.
  - intros [= <-].
    apply (Rewrote d _ _ l existing (basic_update existing d None)); simpl;
      try lia; auto using basic_update_identity.
Qed.

(** every iteration that does not raise has one of the four effects *)
Lemma process_effect src i d st st' :
  step src i d st = Ok st' -> effect d st st'.
Proof.
  unfold process, getitem, query_first.
  destruct (d !! "link") as [lnk|] eqn:El; simpl; [|discriminate].
  destruct (flush (session st)); simpl; [|discriminate].
  destruct lnk as [|l].
  - unfold save_new.
    destruct (getitem d "title"); simpl; [|discriminate].
    destruct (getitem d "summary"); simpl; discriminate.
  - destruct (session st !! l) as [existing|] eqn:Ex.
    + now apply check_effect with (l := l).
    + unfold save_new.
      destruct (getitem d "title") as [t|]; simpl; [|discriminate].
      destruct (getitem d "summary") as [sm|]; simpl; [|discriminate].
      intros [= <-].
      eapply (Inserted d _ _ l); simpl; try reflexivity; try assumption;
        reflexivity.
Qed.

(** a property kept by each of the four effects holds where the loop stops *)
Lemma loop_keeps (P : loop_state -> Prop) src articles_data :
  (forall d st st', P st -> effect d st st' -> P st') ->
  forall i st, P st -> P (run_loop src i articles_data st).1.
Proof.
  intros Hstep.
  induction articles_data as [|d rest IH]; intros i st HP; simpl; [exact HP|].
  destruct (step src i d st) as [st'|e] eqn:E; [|exact HP].
  apply IH. eapply Hstep; [exact HP|]. eapply process_effect; eauto.
Qed.

(** the database after the run is the one before it or the session *)
Lemma db_after_cases articles_data src db :
  db_after (save articles_data src db) = db
  \/ (caught (save articles_data src db) = None
      /\ db_after (save articles_data src db)
         = session (run_loop src 0%nat articles_data (start db)).1).
Proof.
  unfold save_articles.
  destruct (run_loop src 0%nat articles_data (start db)) as [st [e|]];
    simpl; [now left|].
  destruct (flush (session st)); simpl; [right; now split | now left].
Qed.

Lemma final_state articles_data src db :
  final (save articles_data src db)
  = (run_loop src 0%nat articles_data (start db)).1.
Proof.
  unfold save_articles.
  destruct (run_loop src 0%nat articles_data (start db)) as [st [e|]];
    simpl; [reflexivity|].
  now destruct (flush (session st)).
Qed.

Lemma effect_keyed_extends db d st st' :
  keyed (session st) /\ extends db (session st) ->
  effect d st st' ->
  keyed (session st') /\ extends db (session st').
Proof.
  intros [Hk He] [l row _ Hnew Hlink -> _ _ _ _ | -> | -> _ _ _ _
                  | l existing row Hrow -> Hid _ _ _ _]; try (now split).
  - split.
    + now apply map_Forall_insert_2.
    + intros l0 r Hdb. destruct (He l0 r Hdb) as (r' & Hr' & Hsame).
      exists r'. split; [|exact Hsame].
      rewrite lookup_insert_ne; [exact Hr'|]. intros <-. congruence.
  - pose proof (Hk l existing Hrow) as Hl. simpl in Hl.
    destruct Hid as (I1 & I2 & I3 & I4). split.
    + apply map_Forall_insert_2; [|exact Hk]. congruence.
    + intros l0 r Hdb. destruct (He l0 r Hdb) as (r' & Hr' & Hsame).
      destruct (decide (link existing = l0)) as [<-|Hne].
      * exists row. split; [apply lookup_insert_eq|].
        rewrite Hl in Hr'. rewrite Hrow in Hr'. injection Hr' as <-.
        eapply same_identity_trans; [exact Hsame|]. now repeat split.
      * exists r'. split; [|exact Hsame]. now rewrite lookup_insert_ne.
Qed.

Lemma extends_refl db : extends db db.
Proof. intros l r H. exists r. split; [exact H | apply same_identity_refl]. Qed.

(** X1: a run never deletes a stored article and never changes its title,
    link, source or publication time, whatever the candidates say and
    however the run ends. *)
Theorem run_keeps_identity (articles_data : list (gmap string jval))
    (src : string) (db : gmap string NewsArticle) (l : string)
    (r : NewsArticle) :
  keyed db -> db !! l = Some r ->
  exists r', db_after (save articles_data src db) !! l = Some r'
    /\ title r' = title r /\ link r' = link r /\ source r' = source r
    /\ published_at r' = published_at r.
Proof.
  intros Hk Hrow.
  destruct (db_after_cases articles_data src db) as [-> | [_ ->]].
  - exists r. now repeat split.
  - pose proof (loop_keeps
        (fun st => keyed (session st) /\ extends db (session st))
        src articles_data (effect_keyed_extends db) 0%nat (start db)
        (conj Hk (extends_refl db))) as [_ He].
    destruct (He l r Hrow) as (r' & Hr' & Hsame). now exists r'.
Qed.

Lemma effect_size (db : gmap string NewsArticle) d st st' :
  keyed (session st)
  /\ Z.of_nat (size (session st)) = Z.of_nat (size db) + saved_count st ->
  effect d st st' ->
  keyed (session st')
  /\ Z.of_nat (size (session st')) = Z.of_nat (size db) + saved_count st'.
Proof.
  intros [Hk Hs] Heff.
  assert (Hk' : keyed (session st')).
  { apply (effect_keyed_extends ∅ d st st'); [|exact Heff].
    split; [exact Hk|]. intros l r H. rewrite lookup_empty in H. discriminate. }
  split; [exact Hk'|].
  destruct Heff as [l row _ Hnew Hlink -> -> _ _ _ | -> | -> -> _ _ _
                    | l existing row Hrow -> Hid -> _ _ _]; try assumption.
  - rewrite map_size_insert_None by assumption. lia.
  - pose proof (Hk l existing Hrow) as Hl. simpl in Hl. rewrite Hl.
    rewrite map_size_insert_Some by eauto. exact Hs.
Qed.

Lemma session_size articles_data src (db : gmap string NewsArticle) :
  keyed db ->
  Z.of_nat (size (session (run_loop src 0%nat articles_data (start db)).1))
  = Z.of_nat (size db)
    + saved_count (run_loop src 0%nat articles_data (start db)).1.
Proof.
  intros Hk.
  apply (loop_keeps
           (fun st => keyed (session st)
                      /\ Z.of_nat (size (session st))
                         = Z.of_nat (size db) + saved_count st)
           src articles_data (effect_size db) 0%nat (start db)).
  split; [exact Hk | simpl; lia].
Qed.

(** X2: each insert adds one row: where the loop stops the session holds
    the rows of the database plus one per article counted as saved, so a
    link is never inserted twice. *)
Theorem inserts_are_growth (articles_data : list (gmap string jval))
    (src : string) (db : gmap string NewsArticle) :
  keyed db ->
  Z.of_nat (size (session (final (save articles_data src db))))
  = Z.of_nat (size db) + saved_count (final (save articles_data src db)).
Proof.
  intros Hk. rewrite final_state. now apply session_size.
Qed.

Lemma effect_ordered d st st' : ordered st -> effect d st st' -> ordered st'.
Proof.
  unfold ordered.
  intros Ho [l row _ _ _ _ _ -> -> -> | -> | _ _ -> -> ->
             | l existing row _ _ _ _ -> -> Hk]; lia.
Qed.

(** X3: in a run there are at most as many extraction attempts as updates
    and at most as many updates as checks. *)
Theorem attempts_updates_checks (articles_data : list (gmap string jval))
    (src : string) (db : gmap string NewsArticle) :
  Z.of_nat (attempts (final (save articles_data src db)))
    <= updated_count (final (save articles_data src db))
  /\ updated_count (final (save articles_data src db))
     <= checked_count (final (save articles_data src db)).
Proof.
  rewrite final_state.
  apply (loop_keeps ordered src articles_data effect_ordered 0%nat (start db)).
  unfold ordered. simpl. lia.
Qed.

End TableFacts.

(** ** The eligibility gate and the classification, in integers *)

Section DetectorFacts.

Import Ingest Table.

Variable fromisoformat : string -> option Z.
Variable ratio : string -> string -> Q.
Variable generate_summary_from_content : string -> Z -> string.
Variable cfg : config.
Variable w : world.

Local Abbreviation parse := (parse_field fromisoformat).
Local Abbreviation should_check := (should_check_article_for_updates fromisoformat cfg).
Local Abbreviation needs_update := (article_needs_update ratio).
Local Abbreviation refresh :=
  (refresh_content fromisoformat generate_summary_from_content cfg w).
Local Abbreviation check :=
  (check_duplicate fromisoformat ratio generate_summary_from_content cfg w).
Local Abbreviation step :=
  (process fromisoformat ratio generate_summary_from_content cfg w).
Local Abbreviation run_loop :=
  (loop fromisoformat ratio generate_summary_from_content cfg w).
Local Abbreviation save :=
  (save_articles fromisoformat ratio generate_summary_from_content cfg w).

(** X4: whether a duplicate is eligible for a check depends on the stored
    article and the clock only: the candidate never changes the answer. *)
Theorem eligibility_ignores_candidate (now : Z) (existing : NewsArticle)
    (d1 d2 : gmap string jval) :
  should_check now existing d1 = should_check now existing d2.
Proof.
  unfold should_check_article_for_updates.
  destruct (negb (enable_update_checks cfg)); [reflexivity|].
  destruct (updated_at existing) as [stored|]; [|reflexivity].
  match goal with |- context [if ?c then _ else _] => destruct c end;
    [reflexivity|].
  destruct (check_frequency_hours cfg !! "default") as [dflt|]; [|reflexivity].
  match goal with |- context [if ?c then _ else _] => destruct c end;
    [reflexivity|].
  destruct (parse d1 "updated_at") as [n1|], (parse d2 "updated_at") as [n2|];
    try destruct (stored <? n1); try destruct (stored <? n2); reflexivity.
Qed.

(** hours since the last update against the frequency, in microseconds *)
Lemma hours_test elapsed frequency :
  Qlt_bool (Qdiv (Qdiv (inject_Z elapsed) (inject_Z 1000000)) (inject_Z 3600))
           (inject_Z frequency)
  = (elapsed <? frequency * 3600000000).
Proof.
  unfold Qlt_bool.
  destruct (elapsed <? frequency * 3600000000) eqn:E.
  - apply Z.ltb_lt in E. apply negb_true_iff.
    destruct (Qle_bool _ _) eqn:Q; [|reflexivity]. exfalso.
    apply Qle_bool_iff in Q. revert Q.
    unfold Qle, Qdiv, Qmult, Qinv, inject_Z. simpl. lia.
  - apply Z.ltb_ge in E. apply negb_false_iff. apply Qle_bool_iff.
    unfold Qle, Qdiv, Qmult, Qinv, inject_Z. simpl. lia.
Qed.

(** X5: the gate, for an article that has an [updated_at]: it is not checked
    when it was published more than [max_article_age_days] whole days ago,
    nor when its [updated_at] is less than the check frequency of its
    source old; otherwise it is checked. *)
Theorem gate_by_age_and_frequency (now : Z) (existing : NewsArticle)
    (d : gmap string jval) (stored dflt : Z) :
  enable_update_checks cfg = true ->
  updated_at existing = Some stored ->
  check_frequency_hours cfg !! "default" = Some dflt ->
  (forall published, published_at existing = Some published ->
   max_article_age_days cfg < (now - published) / microsecond_per_day ->
   should_check now existing d = Ok false)
  /\ ((forall published, published_at existing = Some published ->
       (now - published) / microsecond_per_day <= max_article_age_days cfg) ->
      should_check now existing d
      = Ok (negb (now - stored
                  <? default dflt (check_frequency_hours cfg !! source existing)
                     * 3600000000))).
Proof.
  intros Hen Hs Hd. unfold should_check_article_for_updates.
  rewrite Hen, Hs. simpl. unfold ensure_romania_timezone. split.
  - intros published Hp Hold. rewrite Hp.
    replace (_ <? _) with true; [reflexivity|].
    symmetry. now apply Z.ltb_lt.
  - intros Hyoung.
    assert (Hnot : match published_at existing with
                   | Some published =>
                       max_article_age_days cfg
                       <? (now - published) / microsecond_per_day
                   | None => false
                   end = false).
    { destruct (published_at existing) as [p|]; [|reflexivity].
      apply Z.ltb_ge. now apply Hyoung. }
    rewrite Hnot, Hd, hours_test.
    destruct (_ <? _); simpl; [reflexivity|].
    destruct (parse d "updated_at") as [n|]; [destruct (stored <? n)|];
      reflexivity.
Qed.

(** the length test, in integers *)
Lemma percent_test old_length new_length :
  0 < old_length ->
  Qlt_bool (inject_Z 5) (length_diff_percent old_length new_length)
  = (5 * old_length <? 100 * Z.abs (new_length - old_length)).
Proof.
  intros Hold. unfold length_diff_percent.
  replace (0 <? old_length) with true by (symmetry; now apply Z.ltb_lt).
  unfold Qlt_bool. destruct old_length as [|p|p]; try lia.
  destruct (_ <? _) eqn:E.
  - apply Z.ltb_lt in E. apply negb_true_iff.
    destruct (Qle_bool _ _) eqn:Q; [|reflexivity]. exfalso.
    apply Qle_bool_iff in Q. revert Q.
    unfold Qle, Qmult, Qdiv, Qinv, inject_Z. simpl. lia.
  - apply Z.ltb_ge in E. apply negb_false_iff. apply Qle_bool_iff.
    unfold Qle, Qmult, Qdiv, Qinv, inject_Z. simpl. lia.
Qed.

(** X6: two non-empty contents count as changed exactly when their lengths
    differ by strictly more than 5% of the stored length; a difference of
    5% or less, the same length with another text included, does not. *)
Theorem content_changed_threshold (existing : NewsArticle)
    (d : gmap string jval) (old_content new_content : string) :
  content existing = Some old_content ->
  d !! "content" = Some (JStr new_content) ->
  truthy_str old_content = true -> truthy_str new_content = true ->
  content_changed existing d
  = (5 * len old_content <? 100 * Z.abs (len new_content - len old_content)).
Proof.
  intros Hold Hnew Ho Hn. unfold content_changed.
  rewrite Hold, Hnew, Ho, Hn. simpl. apply percent_test.
  unfold len. destruct old_content; [discriminate | simpl; lia].
Qed.








End DetectorFacts.

(** ** Runs over known links, runs with update checks disabled *)

Section RunFacts.

Import Ingest Table.

Variable fromisoformat : string -> option Z.
Variable ratio : string -> string -> Q.
Variable generate_summary_from_content : string -> Z -> string.
Variable cfg : config.
Variable w : world.

Local Abbreviation should_check := (should_check_article_for_updates fromisoformat cfg).
Local Abbreviation check :=
  (check_duplicate fromisoformat ratio generate_summary_from_content cfg w).
Local Abbreviation step :=
  (process fromisoformat ratio generate_summary_from_content cfg w).
Local Abbreviation run_loop :=
  (loop fromisoformat ratio generate_summary_from_content cfg w).
Local Abbreviation save :=
  (save_articles fromisoformat ratio generate_summary_from_content cfg w).

Lemma loop_known (db : gmap string NewsArticle) src articles_data :
  forall i st,
  keyed (session st) /\ extends db (session st) ->
  Forall (known db) articles_data ->
  saved_count (run_loop src i articles_data st).1 = saved_count st.
Proof.
  induction articles_data as [|d rest IH]; intros i st Hinv Hall; simpl;
    [reflexivity|].
  inversion Hall as [|? ? Hd Hrest]; subst.
  destruct (step src i d st) as [st'|e] eqn:E; [|reflexivity].
  pose proof (process_effect fromisoformat ratio generate_summary_from_content
                cfg w src i d st st' E) as Heff.
  rewrite IH; [| eapply effect_keyed_extends; eauto | exact Hrest].
  destruct Heff as [l row Hl Hnew _ _ _ _ _ _ | -> | _ -> _ _ _
                    | l existing row _ _ _ -> _ _ _]; try reflexivity.
  exfalso. destruct Hd as (l' & Hl' & [r Hr]).
  rewrite Hl in Hl'. injection Hl' as <-.
  destruct Hinv as [_ He]. destruct (He l r Hr) as (r' & Hr' & _). congruence.
Qed.

(** X10: a run whose candidates are all about links the table already holds
    inserts nothing. *)
Theorem known_links_are_not_inserted (articles_data : list (gmap string jval))
    (src : string) (db : gmap string NewsArticle) :
  keyed db -> Forall (known db) articles_data ->
  saved_count (final (save articles_data src db)) = 0
  /\ dom (db_after (save articles_data src db)) = dom db.
Proof.
  intros Hk Hall. rewrite final_state.
  assert (Hsaved : saved_count (run_loop src 0%nat articles_data (start db)).1
                   = 0).
  { rewrite (loop_known db); [reflexivity | | exact Hall].
    split; [exact Hk | apply extends_refl]. }
  split; [exact Hsaved|].
  destruct (db_after_cases fromisoformat ratio generate_summary_from_content
              cfg w articles_data src db) as [-> | [_ ->]]; [reflexivity|].
  pose proof (loop_keeps fromisoformat ratio generate_summary_from_content
                cfg w
                (fun st => keyed (session st) /\ extends db (session st))
                src articles_data (effect_keyed_extends db) 0%nat (start db)
                (conj Hk (extends_refl db))) as [_ He].
  pose proof (session_size fromisoformat ratio
                generate_summary_from_content cfg w articles_data src db Hk)
    as Hsize.
  rewrite Hsaved in Hsize.
  symmetry. apply set_subseteq_size_eq.
  - intros l Hl. apply elem_of_dom in Hl as [r Hr].
    destruct (He l r Hr) as (r' & Hr' & _). apply elem_of_dom. eauto.
  - rewrite !size_dom. lia.
Qed.

Lemma check_disabled src i existing d st :
  enable_update_checks cfg = false ->
  check src i existing d st = Ok st.
Proof.
  intros Hoff. unfold check_duplicate, should_check_article_for_updates.
  rewrite Hoff. simpl.
  now destruct (checked_count st <? max_checks_per_session cfg).
Qed.

Lemma effect_disabled (db : gmap string NewsArticle) src i d st st' :
  enable_update_checks cfg = false ->
  step src i d st = Ok st' ->
  (forall l r, db !! l = Some r -> session st !! l = Some r) ->
  (forall l r, db !! l = Some r -> session st' !! l = Some r)
  /\ checked_count st' = checked_count st
  /\ updated_count st' = updated_count st.
Proof.
  intros Hoff. unfold process, getitem, query_first.
  destruct (d !! "link") as [lnk|]; simpl; [|discriminate].
  destruct (flush (session st)); simpl; [|discriminate].
  assert (Hnew : forall st0,
            session st !! match lnk with JStr l => l | JNull => "" end = None
            \/ lnk = JNull ->
            save_new fromisoformat src d lnk st = Ok st0 ->
            (forall l r, db !! l = Some r -> session st !! l = Some r) ->
            (forall l r, db !! l = Some r -> session st0 !! l = Some r)
            /\ checked_count st0 = checked_count st
            /\ updated_count st0 = updated_count st).
  { intros st0 Hfree. unfold save_new.
    destruct (getitem d "title"); simpl; [|discriminate].
    destruct (getitem d "summary"); simpl; [|discriminate].
    destruct lnk as [|l]; [discriminate|].
    intros [= <-] Hkeep. simpl. split; [|now split].
    intros l0 r Hdb. rewrite lookup_insert_ne; [now apply Hkeep|].
    intros <-. destruct Hfree as [Hfree|]; [|discriminate].
    rewrite (Hkeep l r Hdb) in Hfree. discriminate. }
  destruct lnk as [|l].
  - apply Hnew. now right.
  - destruct (session st !! l) as [existing|] eqn:Ex.
    + simpl. rewrite check_disabled by assumption. intros [= <-] Hkeep. auto.
    + apply Hnew. left. reflexivity.
Qed.

Lemma loop_disabled (db : gmap string NewsArticle) src articles_data :
  enable_update_checks cfg = false ->
  forall i st,
  (forall l r, db !! l = Some r -> session st !! l = Some r) ->
  (forall l r, db !! l = Some r ->
   session (run_loop src i articles_data st).1 !! l = Some r)
  /\ checked_count (run_loop src i articles_data st).1 = checked_count st
  /\ updated_count (run_loop src i articles_data st).1 = updated_count st.
Proof.
  intros Hoff.
  induction articles_data as [|d rest IH]; intros i st Hkeep; simpl;
    [auto|].
  destruct (step src i d st) as [st'|e] eqn:E; [|auto].
  destruct (effect_disabled db src i d st st' Hoff E Hkeep)
    as (Hkeep' & Hc & Hu).
  destruct (IH (S i) st' Hkeep') as (H1 & H2 & H3).
  split; [exact H1|]. split; congruence.
Qed.

(** X11: with [enable_update_checks] off a run only inserts: every stored
    article is afterwards exactly as it was, nothing is checked and nothing
    is counted as updated. *)
Theorem disabled_checks_only_insert (articles_data : list (gmap string jval))
    (src : string) (db : gmap string NewsArticle) :
  enable_update_checks cfg = false ->
  (forall l r, db !! l = Some r ->
   db_after (save articles_data src db) !! l = Some r)
  /\ checked_count (final (save articles_data src db)) = 0
  /\ updated_count (final (save articles_data src db)) = 0.
Proof.
  intros Hoff.
  destruct (loop_disabled db src articles_data Hoff 0%nat (start db)
              (fun l r H => H)) as (Hkeep & Hc & Hu).
  rewrite final_state. split; [|split; assumption].
  intros l r Hdb.
  destruct (db_after_cases fromisoformat ratio generate_summary_from_content
              cfg w articles_data src db) as [-> | [_ ->]];
    [exact Hdb | now apply Hkeep].
Qed.

End RunFacts.

Section WorkedRunsMore.

Import Ingest Table Sample SampleRuns.

Lemma db_keyed (stamp : option Z) : keyed (db stamp).
Proof. apply map_Forall_insert_2; [reflexivity | apply map_Forall_empty]. Qed.

Lemma run_keeps_identity_witness :
  exists r',
    db_after (run_sample UPDATE_CHECK_CONFIG stalled
                [newer; fresh "https://x/2" JNull] (db (Some T0)))
      !! "https://x/1" = Some r'
    /\ title r' = title (stored (Some T0))
    /\ link r' = link (stored (Some T0))
    /\ source r' = source (stored (Some T0))
    /\ published_at r' = published_at (stored (Some T0)).
Proof.
  apply (run_keeps_identity fromisoformat ratio generate_summary_from_content
           UPDATE_CHECK_CONFIG stalled [newer; fresh "https://x/2" JNull]
           "Biziday" (db (Some T0)) "https://x/1" (stored (Some T0))).
  - apply db_keyed.
  - reflexivity.
Defined.

Lemma inserts_are_growth_witness :
  Z.of_nat (size (session (final
      (run_sample UPDATE_CHECK_CONFIG stalled
         [newer; fresh "https://x/2" JNull; fresh "https://x/2" JNull]
         (db (Some T0))))))
  = Z.of_nat (size (db (Some T0)))
    + saved_count (final
        (run_sample UPDATE_CHECK_CONFIG stalled
           [newer; fresh "https://x/2" JNull; fresh "https://x/2" JNull]
           (db (Some T0)))).
Proof.
  apply (inserts_are_growth fromisoformat ratio generate_summary_from_content
           UPDATE_CHECK_CONFIG stalled
           [newer; fresh "https://x/2" JNull; fresh "https://x/2" JNull]
           "Biziday" (db (Some T0))).
  apply db_keyed.
Defined.

Lemma gate_by_age_and_frequency_witness :
  should_check_article_for_updates fromisoformat UPDATE_CHECK_CONFIG noon3
    (stored (Some T0)) newer
  = Ok (negb (noon3 - T0
              <? default 72
                   (check_frequency_hours UPDATE_CHECK_CONFIG
                      !! source (stored (Some T0)))
                 * 3600000000)).
Proof.
  destruct (gate_by_age_and_frequency fromisoformat UPDATE_CHECK_CONFIG noon3
              (stored (Some T0)) newer T0 72 eq_refl eq_refl eq_refl)
    as [_ Hyoung].
  apply Hyoung. intros published [= <-]. vm_compute. discriminate.
Defined.

Lemma content_changed_threshold_witness :
  content_changed (stored (Some T0)) newer
  = (5 * len (times 50 "A")
     <? 100 * Z.abs (len (times 60 "B") - len (times 50 "A"))).
Proof.
  apply (content_changed_threshold (stored (Some T0)) newer
           (times 50 "A") (times 60 "B")); reflexivity.
Defined.




Lemma known_links_are_not_inserted_witness :
  saved_count (final (run_sample UPDATE_CHECK_CONFIG stalled [newer; same]
                        (db (Some T0)))) = 0
  /\ dom (db_after (run_sample UPDATE_CHECK_CONFIG stalled [newer; same]
                      (db (Some T0))))
     = dom (db (Some T0)).
Proof.
  apply (known_links_are_not_inserted fromisoformat ratio
           generate_summary_from_content UPDATE_CHECK_CONFIG stalled
           [newer; same] "Biziday" (db (Some T0))).
  - apply db_keyed.
  - repeat constructor;
      (exists "https://x/1"; split; [reflexivity | eexists; reflexivity]).
Defined.

Lemma disabled_checks_only_insert_witness :
  (forall l r, db (Some T0) !! l = Some r ->
   db_after (run_sample checks_off stalled
               [newer; fresh "https://x/2" JNull] (db (Some T0))) !! l
   = Some r)
  /\ checked_count (final (run_sample checks_off stalled
                             [newer; fresh "https://x/2" JNull]
                             (db (Some T0)))) = 0
  /\ updated_count (final (run_sample checks_off stalled
                             [newer; fresh "https://x/2" JNull]
                             (db (Some T0)))) = 0.
Proof.
  apply (disabled_checks_only_insert fromisoformat ratio
           generate_summary_from_content checks_off stalled
           [newer; fresh "https://x/2" JNull] "Biziday" (db (Some T0))).
  reflexivity.
Defined.

End WorkedRunsMore.

(** ** More on the guard *)

Section GuardMore.

Import Guard Probe.

(** X12: any number of concurrent non-blocking acquires for the same idle
    source: once all have returned, exactly one was granted and all the
    others were rejected. *)
Theorem try_begin_any_number (L : gmap string bool) (name : string)
    (n : nat) (sched : list nat) :
  L !! name = Some false -> (0 < n)%nat ->
  all_returned (run_schedule sched (replicate n (Pending name), L)).1 = true ->
  granted_count name (run_schedule sched (replicate n (Pending name), L)).1
    = 1%nat
  /\ rejected_count name (run_schedule sched (replicate n (Pending name), L)).1
     = (n - 1)%nat.
Proof.
  intros Hfree Hn Hret.
  destruct (concurrent_try_begin L name n sched Hfree Hn Hret) as (Hg & Hr & _).
  now split.
Qed.

Lemma try_begin_any_number_witness :
  _scraper_locks !! "adevarul" = Some false
  /\ granted_count "adevarul"
       (run_schedule [2%nat; 0%nat; 1%nat]
          (replicate 3 (Pending "adevarul"), _scraper_locks)).1 = 1%nat
  /\ rejected_count "adevarul"
       (run_schedule [2%nat; 0%nat; 1%nat]
          (replicate 3 (Pending "adevarul"), _scraper_locks)).1 = 2%nat.
Proof.
  split; [vm_compute; reflexivity|].
  apply (try_begin_any_number _scraper_locks "adevarul" 3 [2%nat; 0%nat; 1%nat]).
  - vm_compute. reflexivity.
  - lia.
  - vm_compute. reflexivity.
Defined.

Lemma probe_lock_restores name (L : gmap string bool) held :
  L !! name = Some held -> probe_lock name L = Ok (probe held, L).
Proof.
  intros H. unfold probe_lock. destruct held.
  - now rewrite (acquire_held _ _ H).
  - rewrite (acquire_idle _ _ H).
    rewrite release_held by apply lookup_insert_eq. simpl.
    rewrite insert_insert_eq. now rewrite insert_id.
Qed.

(** X13: [get_scraper_status], probing one lock after the other, reports
    running exactly for the locks that are held and leaves every lock as it
    found it. *)
Theorem status_probe_restores_locks (L : gmap string bool) :
  get_scraper_status_steps L = Ok (get_scraper_status L, L).
Proof.
  unfold get_scraper_status_steps, get_scraper_status.
  assert (H : forall m : gmap string bool, m ⊆ L ->
            map_fold
              (fun name (_ : bool) acc =>
                 bind acc (fun '(status, L') =>
                 bind (probe_lock name L') (fun '(s, L'') =>
                 Ok (<[name := s]> status, L''))))
              (Ok (∅, L)) m = Ok (probe <$> m, L)).
  { intros m. induction m as [|name held m Hnew Hfold IH] using map_first_key_ind.
    - intros _. rewrite map_fold_empty. now rewrite fmap_empty.
    - intros Hsub. rewrite map_fold_insert_first_key by assumption.
      rewrite IH.
      + simpl. rewrite (probe_lock_restores name L held).
        * simpl. now rewrite fmap_insert.
        * eapply lookup_weaken; [apply lookup_insert_eq | exact Hsub].
      + etransitivity; [|exact Hsub]. now apply insert_subseteq. }
  now apply H.
Qed.

(** X14: while the status probe holds the lock of an idle source, a run
    request for that source is dropped although no scraper runs; the probe
    then frees the lock. *)
Theorem probe_in_progress_rejects_run {V} (name : string) (rejected : V)
    (handler : exn -> V) (body : body_end V) (L : gmap string bool) :
  L !! name = Some false ->
  exists L1,
    acquire name L = Ok (true, L1)
    /\ guarded_run name rejected handler body L1 = (Ok rejected, L1)
    /\ release name L1 = Ok L.
Proof.
  intros Hfree. exists (<[name := true]> L).
  split; [now apply acquire_idle|]. split.
  - apply guarded_run_rejected. apply lookup_insert_eq.
  - rewrite release_held by apply lookup_insert_eq.
    rewrite insert_insert_eq. now rewrite insert_id.
Qed.

Lemma probe_in_progress_rejects_run_witness :
  exists L1,
    acquire "biziday" _scraper_locks = Ok (true, L1)
    /\ guarded_run "biziday" Skipped Failed (Returns Ran) L1 = (Ok Skipped, L1)
    /\ release "biziday" L1 = Ok _scraper_locks.
Proof.
  apply (probe_in_progress_rejects_run "biziday" Skipped Failed (Returns Ran)
           _scraper_locks).
  vm_compute. reflexivity.
Defined.

(** X15: a news scraper run that holds its guard never lets an [Exception]
    reach the scheduler: it reports the failure and returns; an exception
    that is not an [Exception] goes through, after the guard is freed. *)
Theorem news_run_swallows_exceptions (e : exn) (L : gmap string bool) :
  (L !! "biziday" = Some false ->
   run_biziday_scraper (Throws e) L
   = (if is_Exception e then Ok (Failed e) else Raise e, L))
  /\ (L !! "adevarul" = Some false ->
      run_adevarul_scraper (Throws e) L
      = (if is_Exception e then Ok (Failed e) else Raise e, L)).
Proof.
  split; intros Hfree; unfold run_biziday_scraper, run_adevarul_scraper,
    guarded_run; rewrite (acquire_idle _ _ Hfree);
    rewrite release_held by apply lookup_insert_eq;
    rewrite insert_insert_eq, insert_id by assumption; reflexivity.
Qed.

Lemma news_run_swallows_exceptions_witness :
  run_biziday_scraper (Throws TimeoutExpired) _scraper_locks
  = (Ok (Failed TimeoutExpired), _scraper_locks)
  /\ run_adevarul_scraper (Throws RuntimeError) _scraper_locks
     = (Ok (Failed RuntimeError), _scraper_locks).
Proof.
  destruct (news_run_swallows_exceptions TimeoutExpired _scraper_locks)
    as [Hb _].
  destruct (news_run_swallows_exceptions RuntimeError _scraper_locks)
    as [_ Ha].
  split; [apply Hb | apply Ha]; vm_compute; reflexivity.
Defined.

End GuardMore.

(** ** More on the scheduler and the manual trigger *)

Section SchedulerMore.

Import Guard Ingest Scheduler Api.

Lemma in_recurring testing_mode (config : list (string * source_config)) j :
  In j (concat (map (recurring_jobs testing_mode) config))
  <-> exists entry, In entry config /\ In j (recurring_jobs testing_mode entry).
Proof.
  induction config as [|entry config IH]; simpl.
  - split; [tauto | intros (? & [] & _)].
  - rewrite in_app_iff, IH. split.
    + intros [H | (e & He & Hj)]; eauto.
    + intros (e & [<- | He] & Hj); eauto.
Qed.

Lemma recurring_jobs_in testing_mode name sc j :
  In j (recurring_jobs testing_mode (name, sc))
  <-> enabled sc = true
      /\ ((name = "biziday"
           /\ j = mkJob Scheduler.run_biziday_scraper
                    (interval (if testing_mode then 2 else frequency_minutes sc))
                    "biziday_scraper")
          \/ (name = "adevarul"
              /\ j = mkJob Scheduler.run_adevarul_scraper
                       (interval (if testing_mode then 2 else frequency_minutes sc))
                       "adevarul_scraper")).
Proof.
  unfold recurring_jobs. destruct (enabled sc); simpl.
  - destruct (String.eqb name "biziday") eqn:Eb.
    + apply String.eqb_eq in Eb. subst name. simpl. split.
      * intros [<- | []]. split; [reflexivity|]. left. now split.
      * intros [_ [[_ ->] | [Habs _]]]; [now left | discriminate].
    + apply String.eqb_neq in Eb.
      destruct (String.eqb name "adevarul") eqn:Ea.
      * apply String.eqb_eq in Ea. subst name. simpl. split.
        -- intros [<- | []]. split; [reflexivity|]. right. now split.
        -- intros [_ [[Habs _] | [_ ->]]]; [discriminate | now left].
      * apply String.eqb_neq in Ea.
        destruct (String.eqb name "facebook"); simpl;
          (split; [intros [] | intros [_ [[? _] | [? _]]]; congruence]).
  - split; [intros [] | intros [? _]; discriminate].
Qed.

(** X16: the jobs the scheduler holds are exactly these: the two initial
    jobs, whatever the configuration says (also when it is empty or disables
    the source), and one recurring job for each entry that is enabled and
    named [biziday] or [adevarul], with the configured frequency as its
    interval, or two minutes in testing mode. *)
Theorem scheduled_jobs_follow_config (config : list (string * source_config))
    (testing_mode : bool) (j : job) :
  In j (start_scheduler_in_context config testing_mode)
  <-> (exists name sc,
         In (name, sc) config /\ enabled sc = true
         /\ ((name = "biziday"
              /\ j = mkJob Scheduler.run_biziday_scraper
                       (interval (if testing_mode then 2
                                  else frequency_minutes sc))
                       "biziday_scraper")
             \/ (name = "adevarul"
                 /\ j = mkJob Scheduler.run_adevarul_scraper
                          (interval (if testing_mode then 2
                                     else frequency_minutes sc))
                          "adevarul_scraper")))
      \/ j = mkJob Scheduler.run_biziday_scraper (date 30) "biziday_initial"
      \/ j = mkJob Scheduler.run_adevarul_scraper (date 40) "adevarul_initial".
Proof.
  unfold start_scheduler_in_context. rewrite in_app_iff, in_recurring. split.
  - intros [([name sc] & Hin & Hj) | Hinit].
    + apply recurring_jobs_in in Hj as [Hen Hcases].
      left. exists name, sc. auto.
    + simpl in Hinit. destruct Hinit as [<- | [<- | []]]; auto.
  - intros [(name & sc & Hin & Hen & Hcases) | [-> | ->]].
    + left. exists (name, sc). split; [exact Hin|].
      apply recurring_jobs_in. auto.
    + right. simpl. auto.
    + right. simpl. auto.
Qed.

(** the ids of the recurring jobs of a configuration *)
Lemma recurring_ids testing_mode (config : list (string * source_config)) i :
  In i (map Scheduler.id (concat (map (recurring_jobs testing_mode) config))) ->
  (i = "biziday_scraper" /\ In "biziday" (map fst config))
  \/ (i = "adevarul_scraper" /\ In "adevarul" (map fst config)).
Proof.
  rewrite in_map_iff. intros (j & <- & Hj).
  apply in_recurring in Hj as ([name sc] & Hin & Hj).
  apply recurring_jobs_in in Hj as [_ [[-> ->] | [-> ->]]]; simpl.
  - left. split; [reflexivity|]. apply in_map_iff. now exists ("biziday", sc).
  - right. split; [reflexivity|]. apply in_map_iff. now exists ("adevarul", sc).
Qed.

Lemma recurring_ids_distinct testing_mode
    (config : list (string * source_config)) :
  List.NoDup (map fst config) ->
  List.NoDup (map Scheduler.id
                (concat (map (recurring_jobs testing_mode) config))).
Proof.
  induction config as [|[name sc] config IH]; simpl; intros Hnd;
    [constructor|].
  inversion Hnd as [|? ? Hfresh Hnd']; subst.
  rewrite map_app. apply List.NoDup_app.
  - unfold recurring_jobs. destruct (negb (enabled sc)); [constructor|].
    destruct (String.eqb name "biziday");
      [repeat constructor; simpl; tauto|].
    destruct (String.eqb name "adevarul");
      [repeat constructor; simpl; tauto|].
    destruct (String.eqb name "facebook"); constructor.
  - now apply IH.
  - intros i Hi Hi'.
    apply recurring_ids in Hi'.
    rewrite in_map_iff in Hi. destruct Hi as (j & <- & Hj).
    apply recurring_jobs_in in Hj as [_ [[-> ->] | [-> ->]]]; simpl in *;
      destruct Hi' as [[E Hin] | [E Hin]]; try discriminate;
      now apply Hfresh.
Qed.

(** X17: when the names of the configuration are distinct, as the keys of a
    dict are, no two jobs of the scheduler share an id. *)
Theorem job_ids_are_distinct (config : list (string * source_config))
    (testing_mode : bool) :
  List.NoDup (map fst config) ->
  List.NoDup (map Scheduler.id (start_scheduler_in_context config testing_mode)).
Proof.
  intros Hnd. unfold start_scheduler_in_context. rewrite map_app.
  apply List.NoDup_app.
  - now apply recurring_ids_distinct.
  - repeat constructor; simpl; intuition discriminate.
  - intros i Hi Hi'.
    apply recurring_ids in Hi. simpl in Hi'.
    destruct Hi as [[-> _] | [-> _]]; intuition discriminate.
Qed.

Lemma job_ids_are_distinct_witness :
  List.NoDup (map fst fallback_config)
  /\ List.NoDup (map Scheduler.id (start_scheduler_in_context fallback_config true)).
Proof.
  assert (H : List.NoDup (map fst fallback_config)).
  { repeat constructor; simpl; intuition discriminate. }
  split; [exact H|].
  exact (job_ids_are_distinct fallback_config true H).
Defined.

End SchedulerMore.

Section ApiMore.

Import Guard Ingest Api.




End ApiMore.

(** ** More on the profile refresh *)

Section ProfileMore.

Import Profile Facebook.

Variable datetime : Type.
Variable fromisoformat : string -> option datetime.
Variable str_datetime : datetime -> string.
Variable now : datetime.

Local Abbreviation state := (Profile.state datetime).
Local Abbreviation set_field := (update_field_if_different datetime str_datetime).
Local Abbreviation set_strings := (update_strings datetime str_datetime).
Local Abbreviation set_count := (update_count datetime str_datetime).
Local Abbreviation set_flag := (update_flag datetime str_datetime).
Local Abbreviation set_last_scraped :=
  (update_last_scraped datetime fromisoformat str_datetime now).
Local Abbreviation update :=
  (update_facebook_profile datetime fromisoformat str_datetime now).

Lemma set_field_unchanged g v (st : state) :
  updated (set_field g v st) = false -> set_field g v st = st.
Proof.
  unfold update_field_if_different. destruct (negb _); [discriminate|].
  reflexivity.
Qed.

Lemma set_strings_unchanged data fields : forall st : state,
  updated (set_strings data fields st) = false ->
  set_strings data fields st = st.
Proof.
  induction fields as [|[g dg] fields IH]; intros st H; [reflexivity|].
  change (set_strings data ((g, dg) :: fields) st)
    with (set_strings data fields
            (set_field g (AStr (safe_get_string data g dg)) st)) in *.
  assert (Hhead : updated (set_field g (AStr (safe_get_string data g dg)) st)
                  = false).
  { destruct (updated (set_field g _ st)) eqn:E; [|reflexivity].
    rewrite (set_strings_updated datetime str_datetime data fields _ E) in H.
    discriminate. }
  rewrite (set_field_unchanged _ _ _ Hhead) in *. now apply IH.
Qed.

Lemma set_count_unchanged data key (st st' : state) :
  set_count data key st = Ok st' -> updated st' = false -> st' = st.
Proof.
  unfold update_count.
  destruct (default (PInt 0) (data !! key)) as [|s|z|b|l];
    try (intros [= <-]; reflexivity).
  - destruct (isdigit s); [|intros [= <-]; reflexivity].
    destruct (int_of_digits s) as [z|e]; simpl; [|discriminate].
    intros [= <-]. apply set_field_unchanged.
  - destruct (0 <=? z); intros [= <-];
      [apply set_field_unchanged | reflexivity].
Qed.

Lemma set_flag_unchanged data key dflt (st : state) :
  updated (set_flag data key dflt st) = false ->
  set_flag data key dflt st = st.
Proof.
  unfold update_flag.
  destruct (default (PBool dflt) (data !! key)); try reflexivity.
  apply set_field_unchanged.
Qed.

Lemma set_last_scraped_unchanged data (st : state) :
  updated (set_last_scraped data st) = false ->
  set_last_scraped data st = st.
Proof.
  unfold update_last_scraped.
  destruct (data !! "last_scraped_at") as [v|]; [|reflexivity].
  destruct (truthy v); [|reflexivity].
  destruct v; try reflexivity.
  destruct (fromisoformat _); apply set_field_unchanged.
Qed.

Lemma refresh_unchanged data (st0 st : state) :
  Profile.refresh datetime fromisoformat str_datetime now data st0 = Ok st ->
  updated st = false -> st = st0.
Proof.
  unfold Profile.refresh.
  destruct (accounts_str _) as [a|e]; cbn [bind]; [|discriminate].
  destruct (set_count data "followers_count" _) as [st4|e] eqn:H4; cbn [bind];
    [|discriminate].
  destruct (set_count data "friends_count" st4) as [st5|e] eqn:H5; cbn [bind];
    [|discriminate].
  destruct (set_count data "posts_count" st5) as [st6|e] eqn:H6; cbn [bind];
    [|discriminate].
  intros [= <-] H.
  pose proof (set_last_scraped_unchanged _ _ H) as E. rewrite E in H |- *.
  clear E.
  pose proof (set_field_unchanged _ _ _ H) as E. rewrite E in H |- *. clear E.
  pose proof (set_flag_unchanged _ _ _ _ H) as E. rewrite E in H |- *. clear E.
  pose proof (set_flag_unchanged _ _ _ _ H) as E. rewrite E in H |- *. clear E.
  pose proof (set_count_unchanged _ _ _ _ H6 H) as ->.
  pose proof (set_count_unchanged _ _ _ _ H5 H) as ->.
  pose proof (set_count_unchanged _ _ _ _ H4 H) as E4.
  rewrite E4 in H |- *.
  pose proof (set_strings_unchanged _ _ _ H) as E. rewrite E in H |- *. clear E.
  pose proof (set_field_unchanged _ _ _ H) as E. rewrite E in H |- *. clear E.
  now apply set_strings_unchanged.
Qed.

(** X19: a refresh that reports [updated: False], because no field differs
    or because an exception rolled it back, has written nothing: the stored
    profile is exactly as before, its [updated_at] included. *)
Theorem not_updated_means_untouched (stored : gmap string (attr datetime))
    (new_profile_data : gmap string pyval) :
  result_updated (update stored new_profile_data) = false ->
  profile_after (update stored new_profile_data) = stored.
Proof.
  unfold update_facebook_profile.
  destruct (Profile.refresh _ _ _ _ _ _) as [st|e] eqn:Href; [|reflexivity].
  destruct (updated st) eqn:Hu; simpl; [discriminate|]. intros _.
  now rewrite (refresh_unchanged _ _ _ Href Hu).
Qed.

Lemma not_mentioned f (fields : list (string * string)) :
  ~ In f (fields.*1) -> mentions f fields = false.
Proof.
  unfold mentions. induction fields as [|[g dg] fields IH]; simpl;
    [reflexivity|].
  intros H. apply orb_false_intro.
  - apply String.eqb_neq. intros ->. apply H. now left.
  - apply IH. intros Hin. apply H. now right.
Qed.

Lemma refresh_frame data f (st0 st : state) :
  ~ In f refreshed_columns ->
  Profile.refresh datetime fromisoformat str_datetime now data st0 = Ok st ->
  existing_profile st !! f = existing_profile st0 !! f.
Proof.
  intros Hf.
  assert (Hb : mentions f basic_fields = false).
  { apply not_mentioned. intros H. apply Hf. unfold refreshed_columns,
      string_fields. rewrite !fmap_app. apply in_or_app. left.
    apply in_or_app. now left. }
  assert (Hd : mentions f detail_fields = false).
  { apply not_mentioned. intros H. apply Hf. unfold refreshed_columns,
      string_fields. rewrite !fmap_app. apply in_or_app. left.
    apply in_or_app. right. apply in_or_app. now left. }
  assert (Hs : forall g, In g ["scraping_method"; "connected_accounts";
                                "followers_count"; "friends_count";
                                "posts_count"; "is_verified"; "is_public";
                                "last_scraped_at"] ->
               String.eqb f g = false).
  { intros g Hg. apply String.eqb_neq. intros ->. apply Hf.
    unfold refreshed_columns, string_fields. rewrite !fmap_app.
    simpl in Hg.
    destruct Hg as [<- | Hg].
    - apply in_or_app. left. apply in_or_app. right. apply in_or_app. right.
      now left.
    - apply in_or_app. right. simpl. tauto. }
  unfold Profile.refresh.
  destruct (accounts_str _) as [a|e]; cbn [bind]; [|discriminate].
  destruct (set_count data "followers_count" _) as [st4|e] eqn:H4; cbn [bind];
    [|discriminate].
  destruct (set_count data "friends_count" st4) as [st5|e] eqn:H5; cbn [bind];
    [|discriminate].
  destruct (set_count data "posts_count" st5) as [st6|e] eqn:H6; cbn [bind];
    [|discriminate].
  intros [= <-].
  eapply keeps_lookup;
    [apply set_last_scraped_keeps; apply Hs; simpl; tauto|].
  eapply keeps_lookup; [apply set_field_keeps; apply Hs; simpl; tauto|].
  eapply keeps_lookup; [apply set_flag_keeps; apply Hs; simpl; tauto|].
  eapply keeps_lookup; [apply set_flag_keeps; apply Hs; simpl; tauto|].
  eapply keeps_lookup;
    [eapply set_count_keeps; [|exact H6]; apply Hs; simpl; tauto|].
  eapply keeps_lookup;
    [eapply set_count_keeps; [|exact H5]; apply Hs; simpl; tauto|].
  eapply keeps_lookup;
    [eapply set_count_keeps; [|exact H4]; apply Hs; simpl; tauto|].
  eapply keeps_lookup; [apply set_strings_keeps; exact Hd|].
  eapply keeps_lookup; [apply set_field_keeps; apply Hs; simpl; tauto|].
  eapply keeps_lookup; [apply set_strings_keeps; exact Hb|].
  reflexivity.
Qed.

(** X20: a refresh never touches a column it does not name: the profile URL,
    the id, the creation time and every other column outside the list are
    afterwards what they were. *)
Theorem refresh_leaves_other_columns (stored : gmap string (attr datetime))
    (new_profile_data : gmap string pyval) (f : string) :
  ~ In f refreshed_columns ->
  profile_after (update stored new_profile_data) !! f = stored !! f.
Proof.
  intros Hf. unfold update_facebook_profile.
  destruct (Profile.refresh _ _ _ _ _ _) as [st|e] eqn:Href; [|reflexivity].
  pose proof (refresh_frame _ f _ st Hf Href) as Hframe. simpl in Hframe.
  destruct (updated st); simpl; [|exact Hframe].
  rewrite lookup_insert_ne; [exact Hframe|].
  intros <-. apply Hf. unfold refreshed_columns. apply in_or_app. right.
  simpl. tauto.
Qed.

End ProfileMore.

Section ProfileMoreRuns.

Import Profile Facebook.

Lemma not_updated_means_untouched_witness :
  profile_after
    (update_facebook_profile Z SampleProfile.fromisoformat
       SampleProfile.str_datetime SampleProfile.now SampleProfile.stored
       (<["connected_accounts" := PInt 7]> SampleProfile.name_only))
  = SampleProfile.stored.
Proof.
  apply (not_updated_means_untouched Z SampleProfile.fromisoformat
           SampleProfile.str_datetime SampleProfile.now SampleProfile.stored
           (<["connected_accounts" := PInt 7]> SampleProfile.name_only)).
  vm_compute. reflexivity.
Defined.

Lemma refresh_leaves_other_columns_witness :
  profile_after
    (update_facebook_profile Z SampleProfile.fromisoformat
       SampleProfile.str_datetime SampleProfile.now
       (<["profile_url" := AStr "https://www.facebook.com/ana"]>
          SampleProfile.stored)
       SampleProfile.name_only) !! "profile_url"
  = (<["profile_url" := AStr "https://www.facebook.com/ana"]>
       SampleProfile.stored) !! "profile_url".
Proof.
  apply (refresh_leaves_other_columns Z SampleProfile.fromisoformat
           SampleProfile.str_datetime SampleProfile.now
           (<["profile_url" := AStr "https://www.facebook.com/ana"]>
              SampleProfile.stored)
           SampleProfile.name_only "profile_url").
  unfold refreshed_columns, string_fields. simpl. intuition discriminate.
Defined.

End ProfileMoreRuns.

Section ProfileResets.

Import Profile Facebook.

Variable datetime : Type.
Variable fromisoformat : string -> option datetime.
Variable str_datetime : datetime -> string.
Variable now : datetime.

Local Abbreviation state := (Profile.state datetime).
Local Abbreviation set_field := (update_field_if_different datetime str_datetime).
Local Abbreviation set_strings := (update_strings datetime str_datetime).
Local Abbreviation set_count := (update_count datetime str_datetime).
Local Abbreviation set_flag := (update_flag datetime str_datetime).
Local Abbreviation update :=
  (update_facebook_profile datetime fromisoformat str_datetime now).

Lemma set_field_int f z z' (st : state) :
  existing_profile st !! f = Some (AInt z) ->
  existing_profile (set_field f (AInt z') st) !! f = Some (AInt z').
Proof.
  intros Hs. unfold update_field_if_different. rewrite Hs. simpl.
  destruct (String.eqb (pretty z') (pretty z)) eqn:E; simpl.
  - apply String.eqb_eq in E. apply (inj pretty) in E. now subst.
  - apply lookup_insert_eq.
Qed.

Lemma set_field_bool f b b' (st : state) :
  existing_profile st !! f = Some (ABool b) ->
  existing_profile (set_field f (ABool b') st) !! f = Some (ABool b').
Proof.
  intros Hs. unfold update_field_if_different. rewrite Hs.
  destruct b, b'; simpl; try exact Hs; apply lookup_insert_eq.
Qed.

(** X21: a refresh that does not raise and whose data omit the follower
    count resets a stored count to 0, and one whose data omit [is_public]
    marks a profile stored as private as public. *)
Theorem omitted_count_and_flag_reset (stored : gmap string (attr datetime))
    (new_profile_data : gmap string pyval) :
  result_error (update stored new_profile_data) = None ->
  (forall z, new_profile_data !! "followers_count" = None ->
   stored !! "followers_count" = Some (AInt z) ->
   profile_after (update stored new_profile_data) !! "followers_count"
   = Some (AInt 0))
  /\ (forall b, new_profile_data !! "is_public" = None ->
      stored !! "is_public" = Some (ABool b) ->
      profile_after (update stored new_profile_data) !! "is_public"
      = Some (ABool true)).
Proof.
  unfold update_facebook_profile.
  destruct (Profile.refresh _ _ _ _ _ _) as [st|e] eqn:Href; [|discriminate].
  intros _. revert Href. unfold Profile.refresh.
  destruct (accounts_str _) as [a|e]; cbn [bind]; [|discriminate].
  remember (set_strings new_profile_data detail_fields _) as st3 eqn:E3.
  destruct (set_count new_profile_data "followers_count" st3) as [st4|e] eqn:H4;
    cbn [bind]; [|discriminate].
  destruct (set_count new_profile_data "friends_count" st4) as [st5|e] eqn:H5;
    cbn [bind]; [|discriminate].
  destruct (set_count new_profile_data "posts_count" st5) as [st6|e] eqn:H6;
    cbn [bind]; [|discriminate].
  intros [= <-]. split.
  - intros z Hdata Hs.
    assert (Hval : existing_profile
              (update_last_scraped datetime fromisoformat str_datetime now
                 new_profile_data
                 (set_field "scraping_method"
                    (AStr (safe_get_string new_profile_data "scraping_method"
                             "manual"))
                    (set_flag new_profile_data "is_public" true
                       (set_flag new_profile_data "is_verified" false st6))))
              !! "followers_count" = Some (AInt 0)).
    { eapply keeps_lookup; [apply set_last_scraped_keeps; reflexivity|].
      eapply keeps_lookup; [apply set_field_keeps; reflexivity|].
      eapply keeps_lookup; [apply set_flag_keeps; reflexivity|].
      eapply keeps_lookup; [apply set_flag_keeps; reflexivity|].
      eapply keeps_lookup; [eapply set_count_keeps; [|exact H6]; reflexivity|].
      eapply keeps_lookup; [eapply set_count_keeps; [|exact H5]; reflexivity|].
      unfold update_count in H4. rewrite Hdata in H4. simpl in H4.
      injection H4 as <-. apply (set_field_int "followers_count" z 0).
      subst st3.
      eapply keeps_lookup; [apply set_strings_keeps; reflexivity|].
      eapply keeps_lookup; [apply set_field_keeps; reflexivity|].
      eapply keeps_lookup; [apply set_strings_keeps; reflexivity|].
      exact Hs. }
    destruct (updated _); simpl; [|exact Hval].
    rewrite lookup_insert_ne; [exact Hval | discriminate].
  - intros b Hdata Hs.
    assert (Hval : existing_profile
              (update_last_scraped datetime fromisoformat str_datetime now
                 new_profile_data
                 (set_field "scraping_method"
                    (AStr (safe_get_string new_profile_data "scraping_method"
                             "manual"))
                    (set_flag new_profile_data "is_public" true
                       (set_flag new_profile_data "is_verified" false st6))))
              !! "is_public" = Some (ABool true)).
    { eapply keeps_lookup; [apply set_last_scraped_keeps; reflexivity|].
      eapply keeps_lookup; [apply set_field_keeps; reflexivity|].
      unfold update_flag at 1. rewrite Hdata. simpl.
      apply (set_field_bool "is_public" b true).
      eapply keeps_lookup; [apply set_flag_keeps; reflexivity|].
      eapply keeps_lookup; [eapply set_count_keeps; [|exact H6]; reflexivity|].
      eapply keeps_lookup; [eapply set_count_keeps; [|exact H5]; reflexivity|].
      eapply keeps_lookup; [eapply set_count_keeps; [|exact H4]; reflexivity|].
      subst st3.
      eapply keeps_lookup; [apply set_strings_keeps; reflexivity|].
      eapply keeps_lookup; [apply set_field_keeps; reflexivity|].
      eapply keeps_lookup; [apply set_strings_keeps; reflexivity|].
      exact Hs. }
    destruct (updated _); simpl; [|exact Hval].
    rewrite lookup_insert_ne; [exact Hval | discriminate].
Qed.

End ProfileResets.

Section ProfileResetsRun.

Import Profile.

Lemma omitted_count_and_flag_reset_witness :
  profile_after
    (update_facebook_profile Z SampleProfile.fromisoformat
       SampleProfile.str_datetime SampleProfile.now
       (<["followers_count" := AInt 1200]>
          (<["is_public" := ABool false]> SampleProfile.stored))
       SampleProfile.name_only) !! "followers_count" = Some (AInt 0)
  /\ profile_after
       (update_facebook_profile Z SampleProfile.fromisoformat
          SampleProfile.str_datetime SampleProfile.now
          (<["followers_count" := AInt 1200]>
             (<["is_public" := ABool false]> SampleProfile.stored))
          SampleProfile.name_only) !! "is_public" = Some (ABool true).
Proof.
  destruct (omitted_count_and_flag_reset Z SampleProfile.fromisoformat
              SampleProfile.str_datetime SampleProfile.now
              (<["followers_count" := AInt 1200]>
                 (<["is_public" := ABool false]> SampleProfile.stored))
              SampleProfile.name_only) as [Hcount Hflag].
  - vm_compute. reflexivity.
  - split.
    + apply (Hcount 1200); vm_compute; reflexivity.
    + apply (Hflag false); vm_compute; reflexivity.
Defined.

End ProfileResetsRun.

(** ** Profile URLs and the record of a scrape *)

Section StripFacts.

Lemma lstrip_idem s : lstrip (lstrip s) = lstrip s.
Proof.
  induction s as [|a s IH]; simpl; [reflexivity|].
  destruct (is_space a) eqn:E; [exact IH|]. simpl. now rewrite E.
Qed.

Lemma rstrip_idem s : rstrip (rstrip s) = rstrip s.
Proof.
  induction s as [|a s IH]; simpl; [reflexivity|].
  destruct (rstrip s) as [|b t] eqn:E.
  - destruct (is_space a) eqn:Ea; simpl; [reflexivity|]. now rewrite Ea.
  - simpl in IH |- *. now rewrite IH.
Qed.

Lemma lstrip_rstrip s : lstrip (rstrip s) = rstrip (lstrip s).
Proof.
  induction s as [|a s IH]; simpl; [reflexivity|].
  destruct (is_space a) eqn:Ea.
  - rewrite <- IH. destruct (rstrip s) as [|b t]; simpl; rewrite ?Ea;
      reflexivity.
  - simpl. destruct (rstrip s) as [|b t]; simpl; rewrite ?Ea; reflexivity.
Qed.

Lemma strip_idem s : strip (strip s) = strip s.
Proof.
  unfold strip. rewrite lstrip_rstrip, lstrip_idem. apply rstrip_idem.
Qed.

Lemma rstrip_strip s : rstrip (strip s) = strip s.
Proof. unfold strip. apply rstrip_idem. Qed.

Lemma rstrip_append p u :
  rstrip u <> EmptyString -> rstrip (p ++ u) = p ++ rstrip u.
Proof.
  intros Hu. induction p as [|a p IH]; [reflexivity|].
  change (String a p ++ u) with (String a (p ++ u)).
  change (String a p ++ rstrip u) with (String a (p ++ rstrip u)).
  simpl. rewrite IH. destruct (p ++ rstrip u) as [|b t] eqn:E; [|reflexivity].
  exfalso. destruct p; [contradiction | discriminate].
Qed.

Lemma append_empty p : p ++ EmptyString = p.
Proof.
  induction p as [|a p IH]; [reflexivity|].
  change (String a p ++ EmptyString) with (String a (p ++ EmptyString)).
  now rewrite IH.
Qed.

Lemma rstrip_tail a u :
  rstrip (String a u) = String a u -> rstrip u = u.
Proof.
  simpl. destruct (rstrip u) as [|b t] eqn:E.
  - destruct (is_space a); [discriminate|]. now intros [= <-].
  - now intros [= <-].
Qed.

End StripFacts.

Section FacebookFacts.

Import Profile Facebook Extractor.

Lemma keeps_shape prefix u :
  lstrip (prefix ++ u) = prefix ++ u ->
  rstrip u = u ->
  rstrip prefix = prefix ->
  strip (prefix ++ u) = prefix ++ u.
Proof.
  intros Hl Hr Hp. unfold strip. rewrite Hl.
  destruct u as [|b t].
  - now rewrite append_empty.
  - rewrite rstrip_append; rewrite Hr; [reflexivity | discriminate].
Qed.

Lemma normalize_fixed s :
  strip s = s -> is_prefix "http" s = true -> normalize_facebook_url s = s.
Proof.
  intros Hs Hp. unfold normalize_facebook_url. cbv zeta. now rewrite Hs, Hp.
Qed.

(** X22: [normalize_facebook_url] always yields a string that starts with
    ["http"], and normalising its result again changes nothing. *)
Theorem normalize_facebook_url_idempotent (user_input : string) :
  is_prefix "http" (normalize_facebook_url user_input) = true
  /\ normalize_facebook_url (normalize_facebook_url user_input)
     = normalize_facebook_url user_input.
Proof.
  assert (H : is_prefix "http" (normalize_facebook_url user_input) = true
              /\ strip (normalize_facebook_url user_input)
                 = normalize_facebook_url user_input).
  { unfold normalize_facebook_url. cbv zeta.
    pose proof (strip_idem user_input) as Hidem.
    pose proof (rstrip_strip user_input) as Hr.
    set (u := strip user_input) in *.
    destruct (is_prefix "http" u) eqn:Ehttp; [now split|].
    destruct (isdigit u) eqn:Edigit.
    - split; [reflexivity|].
      apply keeps_shape; [reflexivity | exact Hr | reflexivity].
    - split; [reflexivity|].
      apply keeps_shape; [reflexivity | | reflexivity].
      destruct (is_prefix "@" u); [|exact Hr].
      destruct u as [|a t]; [reflexivity|]. simpl.
      now apply (rstrip_tail a). }
  destruct H as [Hp Hs]. split; [exact Hp | now apply normalize_fixed].
Qed.

Variable datetime : Type.
Variable fromisoformat : string -> option datetime.
Variable str_datetime : datetime -> string.
Variable now : datetime.
Variable db_accepts : gmap string (attr datetime) -> bool.
Variable bind_value : pyval -> res (attr datetime).

Local Abbreviation record :=
  (record_profile datetime fromisoformat str_datetime now db_accepts
     bind_value).
Local Abbreviation build := (new_profile datetime now bind_value).

(** X23: after a scrape of a profile whose URL is not stored, success with
    action "created" is returned whatever [save_facebook_profile] did: when
    the save fails (a [connected_accounts] that cannot be joined, a count
    that does not parse, a row the database refuses) the table is as
    before and success is returned all the same. *)
Theorem created_is_reported_without_a_row
    (db : gmap string (gmap string (attr datetime)))
    (profile_data : gmap string pyval) (profile_url : string) :
  db !! profile_url = None ->
  is_Some (profile_data !! "name") ->
  exists db',
    record db profile_data profile_url = Ok (Guard.FbSuccess "created", db')
    /\ (forall e, build profile_data profile_url = Raise e -> db' = db)
    /\ (forall row, build profile_data profile_url = Ok row ->
        db_accepts row = false -> db' = db)
    /\ (profile_data !! "connected_accounts" = Some PNone ->
        build profile_data profile_url = Raise TypeError).
Proof.
  intros Hnew [v Hname]. unfold record_profile, save_facebook_profile.
  rewrite Hname, Hnew. eexists. split; [reflexivity|].
  repeat split.
  - intros e ->. reflexivity.
  - intros row -> ->. reflexivity.
  - intros Hacc. unfold new_profile. now rewrite Hacc.
Qed.

(** X24: after a scrape of a stored profile, success is returned also when
    the refresh raised and was rolled back: the action is then "refreshed"
    and the table is as before. *)
Theorem refreshed_is_reported_after_rollback
    (db : gmap string (gmap string (attr datetime)))
    (profile_data : gmap string pyval) (profile_url : string)
    (existing : gmap string (attr datetime)) (e : exn) :
  db !! profile_url = Some existing ->
  is_Some (profile_data !! "name") ->
  result_error
    (update_facebook_profile datetime fromisoformat str_datetime now existing
       profile_data) = Some e ->
  record db profile_data profile_url = Ok (Guard.FbSuccess "refreshed", db).
Proof.
  intros Hrow [v Hname] Herr. unfold record_profile. rewrite Hname, Hrow.
  revert Herr. unfold update_facebook_profile.
  destruct (Profile.refresh _ _ _ _ _ _) as [st|e'].
  - destruct (updated st); discriminate.
  - intros _. simpl. now rewrite insert_id.
Qed.

End FacebookFacts.

Section FacebookRuns.

Import Profile Facebook.

Lemma created_is_reported_without_a_row_witness :
  exists db',
    record_profile Z SampleProfile.fromisoformat SampleProfile.str_datetime
      SampleProfile.now (fun _ => true) (fun _ => Raise OtherException) ∅
      (<["connected_accounts" := PNone]> SampleProfile.name_only)
      "https://www.facebook.com/ana"
    = Ok (Guard.FbSuccess "created", db')
    /\ (forall e,
        new_profile Z SampleProfile.now (fun _ => Raise OtherException)
          (<["connected_accounts" := PNone]> SampleProfile.name_only)
          "https://www.facebook.com/ana" = Raise e -> db' = ∅)
    /\ (forall row,
        new_profile Z SampleProfile.now (fun _ => Raise OtherException)
          (<["connected_accounts" := PNone]> SampleProfile.name_only)
          "https://www.facebook.com/ana" = Ok row ->
        (fun _ : gmap string (attr Z) => true) row = false -> db' = ∅)
    /\ ((<["connected_accounts" := PNone]> SampleProfile.name_only)
          !! "connected_accounts" = Some PNone ->
        new_profile Z SampleProfile.now (fun _ => Raise OtherException)
          (<["connected_accounts" := PNone]> SampleProfile.name_only)
          "https://www.facebook.com/ana" = Raise TypeError).
Proof.
  apply (created_is_reported_without_a_row Z SampleProfile.fromisoformat
           SampleProfile.str_datetime SampleProfile.now (fun _ => true) (fun _ => Raise OtherException) ∅
           (<["connected_accounts" := PNone]> SampleProfile.name_only)
           "https://www.facebook.com/ana").
  - reflexivity.
  - exists (PStr "Ana"). vm_compute. reflexivity.
Defined.

Lemma refreshed_is_reported_after_rollback_witness :
  record_profile Z SampleProfile.fromisoformat SampleProfile.str_datetime
    SampleProfile.now (fun _ => true) (fun _ => Raise OtherException)
    (<["https://www.facebook.com/ana" := SampleProfile.stored]> ∅)
    (<["connected_accounts" := PInt 7]> SampleProfile.name_only)
    "https://www.facebook.com/ana"
  = Ok (Guard.FbSuccess "refreshed",
        <["https://www.facebook.com/ana" := SampleProfile.stored]> ∅).
Proof.
  apply (refreshed_is_reported_after_rollback Z SampleProfile.fromisoformat
           SampleProfile.str_datetime SampleProfile.now (fun _ => true)
           (fun _ => Raise OtherException)
           (<["https://www.facebook.com/ana" := SampleProfile.stored]> ∅)
           (<["connected_accounts" := PInt 7]> SampleProfile.name_only)
           "https://www.facebook.com/ana" SampleProfile.stored TypeError).
  - apply lookup_insert_eq.
  - exists (PStr "Ana"). vm_compute. reflexivity.
  - vm_compute. reflexivity.
Defined.

End FacebookRuns.

(** ** Summaries *)

Section SummaryFacts.

Import Summary.





Variable clean_text : string -> string.
Variables over_70 over_80 : Z -> Z -> bool.


End SummaryFacts.


(** ** Scheduler configuration *)

Section ConfigFacts.

Import Scheduler Config.

Variable normalize_source_name : string -> string.

Lemma from_sources_enabled (sources : list NewsSource) :
  forall acc : gmap string source_config,
  map_Forall (fun _ sc => enabled sc = true) acc ->
  Forall (fun r => scraping_enabled r = true) sources ->
  map_Forall (fun _ sc => enabled sc = true)
    (fold_left
       (fun config source =>
          <[normalize_source_name (ns_name source) :=
              mkSource (scraping_frequency source) (scraping_enabled source)
                (Some (ns_id source)) (ns_name source)]> config)
       sources acc).
Proof.
  induction sources as [|r sources IH]; intros acc Hacc Hall; simpl;
    [exact Hacc|].
  inversion Hall as [|? ? Hr Hrest]; subst.
  apply IH; [|exact Hrest]. now apply map_Forall_insert_2.
Qed.

Lemma fallback_enabled :
  map_Forall (fun _ sc => enabled sc = true) fallback.
Proof.
  unfold fallback, fallback_config. simpl.
  repeat (apply map_Forall_insert_2; [reflexivity|]).
  apply map_Forall_empty.
Qed.

Lemma filter_none (rows : list NewsSource) :
  Forall (fun r => scraping_enabled r = false) rows ->
  List.filter scraping_enabled rows = [].
Proof.
  induction 1 as [|r rows Hr _ IH]; simpl; [reflexivity|]. now rewrite Hr.
Qed.

Lemma fallback_not_empty : fallback <> ∅.
Proof. unfold fallback, fallback_config. simpl. apply insert_non_empty. Qed.

(** X26: the configuration is never empty and lists enabled sources only: a
    source disabled in the table is left out, and when the query fails or
    no source of the table is enabled, the built-in configuration, which
    enables Biziday, Adevarul and Facebook, is used. *)
Theorem config_lists_enabled_sources (table : res (list NewsSource)) :
  map_Forall (fun _ sc => enabled sc = true)
    (get_scraping_config normalize_source_name table)
  /\ get_scraping_config normalize_source_name table <> ∅
  /\ ((forall rows, table = Ok rows ->
       Forall (fun r => scraping_enabled r = false) rows) ->
      get_scraping_config normalize_source_name table = fallback).
Proof.
  unfold get_scraping_config. destruct table as [rows|e].
  - destruct (decide (from_sources normalize_source_name
                        (List.filter scraping_enabled rows) = ∅))
      as [Hempty|Hfull].
    + split; [apply fallback_enabled|]. split; [apply fallback_not_empty|].
      reflexivity.
    + split; [|split; [exact Hfull|]].
      * apply from_sources_enabled; [apply map_Forall_empty|].
        apply Forall_forall. intros r Hr. apply list_elem_of_In in Hr.
        now apply filter_In in Hr as [_ Hr].
      * intros Hoff. exfalso. apply Hfull.
        now rewrite (filter_none rows (Hoff rows eq_refl)).
  - split; [apply fallback_enabled|]. split; [apply fallback_not_empty|].
    reflexivity.
Qed.

End ConfigFacts.

Lemma config_lists_enabled_sources_witness :
  Config.get_scraping_config (fun s => s)
    (Ok [Config.mkNewsSource 1 "biziday" false 120])
  = Config.fallback.
Proof.
  destruct (config_lists_enabled_sources (fun s => s)
              (Ok [Config.mkNewsSource 1 "biziday" false 120]))
    as (_ & _ & Hoff).
  apply Hoff. intros rows [= <-]. repeat constructor.
Defined.
